(** * FunctionCalling.ipynb: natural language to SQL through tool calls

    A shallow embedding of the notebook's code cells: [get_schema],
    [read_data], the two orchestration routines [get_result_v1] and
    [get_result_v2], and the evaluation loop.  The external libraries the
    notebook calls (sqlite3, pandas, json, the chat-completion endpoint)
    are parameters of the development; the control flow between them is
    the notebook's. *)

From Stdlib Require Import String Ascii List ZArith Bool Arith Lia.
From Stdlib Require Import Floats.SpecFloat Numbers.DecimalString.
Import ListNotations.
Local Open Scope string_scope.
Local Open Scope list_scope.
Local Open Scope nat_scope.
Local Set Warnings "-register-all".

(** ** Python outcomes: a value or a raised exception *)

Inductive exn : Type :=
| TypeError | IndexError | KeyError | ValueError
| JSONDecodeError | DatabaseError | APIError.

Inductive outcome (A : Type) : Type :=
| Ret (a : A)
| Raise (e : exn).
Arguments Ret {A} a.
Arguments Raise {A} e.

(** [seq[i]] on a list or tuple. *)
Definition py_index {A : Type} (l : list A) (i : nat) : outcome A :=
  match nth_error l i with
  | Some x => Ret x
  | None => Raise IndexError
  end.

(** [x[i]] where [x] may be [None]: subscripting [None] is a [TypeError]. *)
Definition py_index_opt {A : Type} (l : option (list A)) (i : nat) : outcome A :=
  match l with
  | None => Raise TypeError
  | Some l => py_index l i
  end.

(** ** Values stored in the database and in result sets *)

Inductive scalar : Type :=
| SNone
| SInt (z : Z)
| SFloat (f : spec_float)
| SText (s : string)
| SBlob (b : string).

(** Python's [==] between an [int] and a [float] compares the exact
    mathematical values. *)
Definition int_float_eqb (z : Z) (f : spec_float) : bool :=
  match f with
  | S754_zero _ => (z =? 0)%Z
  | S754_finite s m e =>
      let v := if s then Z.neg m else Z.pos m in
      if (0 <=? e)%Z then (z =? v * 2 ^ e)%Z else (z * 2 ^ (- e) =? v)%Z
  | _ => false
  end.

(** Python's [==] on the scalars; a NaN is equal to nothing, itself
    included. *)
Definition scalar_eqb (a b : scalar) : bool :=
  match a, b with
  | SNone, SNone => true
  | SInt x, SInt y => (x =? y)%Z
  | SFloat f, SFloat g => SFeqb f g
  | SInt x, SFloat g => int_float_eqb x g
  | SFloat f, SInt y => int_float_eqb y f
  | SText s, SText t => String.eqb s t
  | SBlob s, SBlob t => String.eqb s t
  | _, _ => false
  end.

(** A pandas DataFrame: column labels and the rows of cell values. *)
Record DataFrame : Type := mkDataFrame {
  columns : list string;
  rows : list (list scalar)
}.

(** A DataFrame is rectangular: every row has one cell per column. *)
Definition rectangular (df : DataFrame) : Prop :=
  Forall (fun r => length r = length (columns df)) (rows df).

(** A two-dimensional numpy array: its shape and its cells, row by row. *)
Record ndarray : Type := mkArray {
  shape : nat * nat;
  data : list (list scalar)
}.

(** [df.to_numpy()]: the values only, the column labels are dropped.  The
    cells are kept as Python values; the common dtype numpy would pick for
    the array is not modelled. *)
Definition to_numpy (df : DataFrame) : ndarray :=
  {| shape := (length (rows df), length (columns df)); data := rows df |}.

(** Broadcasting of one dimension: equal sizes, or one of them is 1. *)
Definition broadcast_dim (a b : nat) : option nat :=
  if a =? b then Some a
  else if a =? 1 then Some b
  else if b =? 1 then Some a
  else None.

(** The cell at [(i, j)] of the broadcast array. *)
Definition item (a : ndarray) (i j : nat) : option scalar :=
  let i' := if fst (shape a) =? 1 then 0 else i in
  let j' := if snd (shape a) =? 1 then 0 else j in
  nth_error (nth i' (data a) []) j'.

Definition item_eqb (a b : ndarray) (i j : nat) : bool :=
  match item a i j, item b i j with
  | Some x, Some y => scalar_eqb x y
  | _, _ => false
  end.

(** [a == b] on arrays: elementwise over the broadcast shape.  Shapes that
    do not broadcast raise [ValueError]; older numpy releases return a
    plain [False] there, on which [.all()] raises as well. *)
Definition np_eq (a b : ndarray) : outcome (list (list bool)) :=
  match broadcast_dim (fst (shape a)) (fst (shape b)),
        broadcast_dim (snd (shape a)) (snd (shape b)) with
  | Some r, Some c =>
      Ret (map (fun i => map (fun j => item_eqb a b i j) (seq 0 c)) (seq 0 r))
  | _, _ => Raise ValueError
  end.

(** [m.all()] on a boolean array. *)
Definition np_all (m : list (list bool)) : bool :=
  forallb (fun r => forallb (fun x => x) r) m.

(** [(a.to_numpy() == b.to_numpy()).all()] *)
Definition frames_equal (a b : DataFrame) : outcome bool :=
  match np_eq (to_numpy a) (to_numpy b) with
  | Ret m => Ret (np_all m)
  | Raise e => Raise e
  end.

(** ** JSON values, as [json.loads] builds them

    An object is the dictionary built from it, one entry per key. *)

Inductive json : Type :=
| JNull
| JBool (b : bool)
| JInt (z : Z)
| JFloat (f : spec_float)
| JStr (s : string)
| JList (l : list json)
| JDict (d : list (string * json)).

Fixpoint dict_get {V : Type} (d : list (string * V)) (k : string) : option V :=
  match d with
  | [] => None
  | (k', v) :: d' => if String.eqb k' k then Some v else dict_get d' k
  end.

(** [v[key]] for a string key. *)
Definition json_getitem (v : json) (key : string) : outcome json :=
  match v with
  | JDict d =>
      match dict_get d key with
      | Some x => Ret x
      | None => Raise KeyError
      end
  | _ => Raise TypeError
  end.

(** ** The chat-completion interface *)

Record tool : Type := mkTool {
  t_type : string;
  t_name : string;
  t_description : string;
  t_properties : list (string * (string * string));
  t_required : list string
}.

Record tool_call : Type := mkToolCall {
  tc_id : string;
  tc_name : string;          (* tool_call.function.name *)
  tc_arguments : string      (* tool_call.function.arguments *)
}.

Record ChatCompletionMessage : Type := mkResponseMessage {
  content : option string;
  tool_calls : option (list tool_call)
}.

Inductive message : Type :=
| Msg (role text : string)
| ToolMsg (tool_call_id role name text : string)
| AssistantMsg (m : ChatCompletionMessage).

Record chat_request : Type := mkRequest {
  rq_model : string;
  rq_temperature : spec_float;
  rq_tools : list tool;
  rq_messages : list message
}.

(** What the endpoint answers: the messages of [response.choices], or an
    error of the client library. *)
Definition api_reply : Type := outcome (list ChatCompletionMessage).

(** ** Events on the database side *)

Inductive db_event : Type :=
| Connect (c : nat)
| CursorExecute (c : nat) (sql : string)
| ReadSqlQuery (c : nat) (sql : json)
| Close (c : nat).

(** Connections opened and not closed by a call of [close] since, oldest
    first; what the interpreter releases on its own is not recorded. *)
Fixpoint open_conns (log : list db_event) (acc : list nat) : list nat :=
  match log with
  | [] => acc
  | Connect c :: log' => open_conns log' (acc ++ [c])
  | Close c :: log' => open_conns log' (filter (fun x => negb (x =? c)) acc)
  | _ :: log' => open_conns log' acc
  end.

Definition str_nat (n : nat) : string := NilEmpty.string_of_uint (Nat.to_uint n).

(** ** The libraries the notebook runs on *)

(** The state of the database file, and what the libraries do with it:
    sqlite3's [cursor.execute] followed by [fetchall], pandas'
    [read_sql_query], [json.loads], and Python's [str] and [repr] on the
    values that are printed into statements and prompts.  [None] is the
    library raising. *)
Class Runtime : Type := {
  database : Type;
  cursor_execute : database -> string -> option (list (list scalar));
  read_sql_query : database -> string -> option DataFrame;
  json_loads : string -> option json;
  py_str : scalar -> string;
  py_repr : scalar -> string
}.

Declare Scope py_scope.
Delimit Scope py_scope with py.

(** ** The notebook's code *)

Section Notebook.

Context {rt : Runtime}.

(** The world a cell runs in: the database, the replies the remote model
    gives (the n-th request gets the n-th reply), and what has been done
    so far. *)
Record world : Type := mkWorld {
  w_db : database;
  w_llm : nat -> api_reply;
  w_requests : list chat_request;
  w_dblog : list db_event;
  w_stdout : list string
}.

(** Computations: they change the world and return or raise; what was
    done before an exception stays done. *)
Definition M (A : Type) : Type := world -> outcome A * world.

Definition ret {A : Type} (a : A) : M A := fun w => (Ret a, w).

Definition bind {A B : Type} (m : M A) (k : A -> M B) : M B :=
  fun w =>
    match m w with
    | (Ret a, w') => k a w'
    | (Raise e, w') => (Raise e, w')
    end.

(** A pure operation that may raise. *)
Definition lift {A : Type} (o : outcome A) : M A := fun w => (o, w).

(** [try: body / except Exception as e: handler] *)
Definition try_except {A : Type} (body : M A) (handler : exn -> M A) : M A :=
  fun w =>
    match body w with
    | (Ret a, w') => (Ret a, w')
    | (Raise e, w') => handler e w'
    end.

Notation "x <- m ;; k" := (bind m (fun x => k))
  (at level 61, m at next level, right associativity) : py_scope.
Notation "m ;;; k" := (bind m (fun _ => k))
  (at level 61, right associativity) : py_scope.
Local Open Scope py_scope.

(** [for x in xs: acc = body(acc, x)] *)
Fixpoint for_each {A S : Type} (xs : list A) (body : S -> A -> M S) (acc : S) : M S :=
  match xs with
  | [] => ret acc
  | x :: xs' => acc' <- body acc x ;; for_each xs' body acc'
  end.

(** [[f(x) for x in xs]], stopping at the first [f(x)] that raises. *)
Fixpoint comprehension {A B : Type} (f : A -> outcome B) (xs : list A) : outcome (list B) :=
  match xs with
  | [] => Ret []
  | x :: xs' =>
      match f x with
      | Raise e => Raise e
      | Ret y =>
          match comprehension f xs' with
          | Raise e => Raise e
          | Ret ys => Ret (y :: ys)
          end
      end
  end.

(** *** sqlite3, pandas, the endpoint and the console *)

Definition set_dblog (log : list db_event) (w : world) : world :=
  {| w_db := w_db w; w_llm := w_llm w; w_requests := w_requests w;
     w_dblog := log; w_stdout := w_stdout w |}.

Definition add_db_event (e : db_event) (w : world) : world :=
  set_dblog (w_dblog w ++ [e]) w.

Definition add_request (rq : chat_request) (w : world) : world :=
  {| w_db := w_db w; w_llm := w_llm w; w_requests := w_requests w ++ [rq];
     w_dblog := w_dblog w; w_stdout := w_stdout w |}.

(** [sqlite3.connect(db_path)]: a new connection handle.  The file is
    taken to open; a connection that cannot be made is not modelled. *)
Definition sqlite3_connect : M nat :=
  fun w => let c := length (w_dblog w) in (Ret c, add_db_event (Connect c) w).

(** [conn.close()] *)
Definition conn_close (c : nat) : M unit :=
  fun w => (Ret tt, add_db_event (Close c) w).

(** [cursor.execute(sql)] then [cursor.fetchall()] *)
Definition execute_fetchall (c : nat) (sql : string) : M (list (list scalar)) :=
  fun w =>
    (match cursor_execute (w_db w) sql with
     | Some result => Ret result
     | None => Raise DatabaseError
     end, add_db_event (CursorExecute c sql) w).

(** [pd.read_sql_query(query, conn)]; a query that is not a string is
    refused. *)
(** What [pd.read_sql_query] gives for a query on the database.  Whatever
    the library raises on a statement is recorded as [DatabaseError], and
    a statement is taken to leave the database as it was. *)
Definition run_query (db : database) (query : json) : outcome DataFrame :=
  match query with
  | JStr sql =>
      match read_sql_query db sql with
      | Some df => Ret df
      | None => Raise DatabaseError
      end
  | _ => Raise TypeError
  end.

Definition pd_read_sql_query (query : json) (c : nat) : M DataFrame :=
  fun w => (run_query (w_db w) query, add_db_event (ReadSqlQuery c query) w).

(** [openai.chat.completions.create(...)], returning the messages of
    [response.choices]. *)
Definition chat_completions_create (model : string) (temperature : spec_float)
    (tools : list tool) (messages : list message) : M (list ChatCompletionMessage) :=
  fun w =>
    (w_llm w (length (w_requests w)),
     add_request {| rq_model := model; rq_temperature := temperature;
                    rq_tools := tools; rq_messages := messages |} w).

(** [print(line)] *)
Definition print (line : string) : M unit :=
  fun w => (Ret tt, {| w_db := w_db w; w_llm := w_llm w;
                       w_requests := w_requests w; w_dblog := w_dblog w;
                       w_stdout := w_stdout w ++ [line] |}).

(** [json.loads(text)] *)
Definition loads (text : string) : outcome json :=
  match json_loads text with
  | Some v => Ret v
  | None => Raise JSONDecodeError
  end.

(** *** Cell 2: [get_schema] *)

(** The schema dictionary, in insertion order. *)
Definition Schema : Type := list (scalar * list scalar).

(** [d[k] = v] *)
Fixpoint dict_set (d : Schema) (k : scalar) (v : list scalar) : Schema :=
  match d with
  | [] => [(k, v)]
  | (k', v') :: d' =>
      if scalar_eqb k' k then (k', v) :: d' else (k', v') :: dict_set d' k v
  end.

(** [str(schema)] *)
Definition str_schema (d : Schema) : string :=
  ("{" ++ String.concat ", "
     (map (fun kv => py_repr (fst kv) ++ ": [" ++
                     String.concat ", " (map py_repr (snd kv)) ++ "]") d)
   ++ "}")%string.

(** The body of the loop [for table in tables]. *)
Definition add_table (conn : nat) (schema : Schema) (table : list scalar) : M Schema :=
  table_name <- lift (py_index table 0) ;;
  columns <- execute_fetchall conn
               ("PRAGMA table_info('" ++ py_str table_name ++ "')")%string ;;
  names <- lift (comprehension (fun column => py_index column 1) columns) ;;
  ret (dict_set schema table_name names).

Definition get_schema : M Schema :=
  conn <- sqlite3_connect ;;
  tables <- execute_fetchall conn "SELECT name FROM sqlite_master WHERE type='table';" ;;
  for_each tables (add_table conn) [].

(** *** Cell 3: [read_data] *)

Definition read_data (query : json) : M DataFrame :=
  conn <- sqlite3_connect ;;
  df <- pd_read_sql_query query conn ;;
  conn_close conn ;;;
  ret df.

(** *** Cell 5: one function call *)

(** The f-string of [SYSTEM_PROMPT_v1]: evaluating it reads the schema. *)
Definition system_prompt_v1_text (schema_text : string) : string :=
  ("
            The user will ask a question about the database with the following schema:
            ###
            " ++ schema_text ++ "
            ###
            Provide a SQL query answering the question.  
            Avoid ambiguous column names.
            ")%string.

Definition SYSTEM_PROMPT_v1 : M string :=
  schema <- get_schema ;;
  ret (system_prompt_v1_text (str_schema schema)).

Definition read_data_tool : tool :=
  {| t_type := "function";
     t_name := "read_data";
     t_description := "Get pandas dataframe from SQLite database given a query";
     t_properties := [("query", ("string", "SQL query to execute"))];
     t_required := ["query"] |}.

Definition temperature_0 : spec_float := S754_zero false.

(** What a call returns: the pair [(sql_query, df)], or [None] when the
    function body ends without reaching a [return]. *)
Definition result : Type := option (json * DataFrame).

Definition get_result_v1 (user_question system_prompt : string) : M result :=
  let messages := [Msg "system" system_prompt; Msg "user" user_question] in
  let functions := [read_data_tool] in
  response <- chat_completions_create "gpt-3.5-turbo-0125" temperature_0
                functions messages ;;
  response_message <- lift (py_index response 0) ;;
  let messages := messages ++ [AssistantMsg response_message] in
  tool_call <- lift (py_index_opt (tool_calls response_message) 0) ;;
  let function_name := tc_name tool_call in
  if String.eqb function_name "read_data" then
    arguments <- lift (loads (tc_arguments tool_call)) ;;
    sql_query <- lift (json_getitem arguments "query") ;;
    df <- read_data sql_query ;;
    ret (Some (sql_query, df))
  else ret None.

(** *** Cell 6: two function calls *)

Definition SYSTEM_PROMPT_v2 : string :=
  "
        The user will ask a question about the database. 
        First, get the schema of the database. 
        Then, provide a SQL query answering the question.       
        Avoid ambiguous column names.
        ".

Definition get_schema_tool : tool :=
  {| t_type := "function";
     t_name := "get_schema";
     t_description := "Get the schema of the SQLite database";
     t_properties := [];
     t_required := [] |}.

Definition get_result_v2 (user_question system_prompt : string) : M result :=
  let messages := [Msg "system" system_prompt; Msg "user" user_question] in
  let functions := [get_schema_tool; read_data_tool] in
  response <- chat_completions_create "gpt-3.5-turbo-0125" temperature_0
                functions messages ;;
  response_message <- lift (py_index response 0) ;;
  let messages := messages ++ [AssistantMsg response_message] in
  tool_call <- lift (py_index_opt (tool_calls response_message) 0) ;;
  let function_name := tc_name tool_call in
  if String.eqb function_name "get_schema" then
    schema <- get_schema ;;
    let messages := messages ++
      [ToolMsg (tc_id tool_call) "tool" function_name (str_schema schema)] in
    second_response <- chat_completions_create "gpt-3.5-turbo-0125" temperature_0
                         functions messages ;;
    response_message <- lift (py_index second_response 0) ;;
    let messages := messages ++ [AssistantMsg response_message] in
    tool_call <- lift (py_index_opt (tool_calls response_message) 0) ;;
    let function_name := tc_name tool_call in
    if String.eqb function_name "read_data" then
      arguments <- lift (loads (tc_arguments tool_call)) ;;
      sql_query <- lift (json_getitem arguments "query") ;;
      df <- read_data sql_query ;;
      ret (Some (sql_query, df))
    else ret None
  else ret None.

(** *** Cells 14 and 15: the evaluation loop *)

(** [a, b = value]: unpacking [None] is a [TypeError]. *)
Definition unpack (value : result) : outcome (json * DataFrame) :=
  match value with
  | Some p => Ret p
  | None => Raise TypeError
  end.

(** One row of [eval_questions.csv]. *)
Record EvalCase : Type := mkCase {
  Question : string;
  Answer : string
}.

(** The body of the loop for one row.  [question] is the notebook's
    global variable of that name; the row's own [Question] is bound to
    [_] and not used. *)
Definition eval_row (get_result : string -> M result) (question : string)
    (n_correct : nat) (row : EvalCase) : M nat :=
  let query := Answer row in
  df_true <- read_data (JStr query) ;;
  try_except
    (value <- get_result question ;;
     p <- lift (unpack value) ;;
     let df_llm := snd p in
     lift (frames_equal df_true df_llm) ;;;
     ret (n_correct + 1))
    (fun e => ret n_correct).

Definition evaluation (get_result : string -> M result) (question : string)
    (eval_df : list EvalCase) : M unit :=
  n_correct <- for_each eval_df (eval_row get_result question) 0 ;;
  print ("Number of correct responses: " ++ str_nat n_correct ++ "/" ++
         str_nat (length eval_df))%string.

(** Cell 14: [get_result = get_result_v1], called with its default
    [system_prompt], the value [SYSTEM_PROMPT_v1] had when cell 5 ran. *)
Definition evaluation_v1 (system_prompt_v1 question : string)
    (eval_df : list EvalCase) : M unit :=
  evaluation (fun q => get_result_v1 q system_prompt_v1) question eval_df.

(** Cell 15: [get_result = get_result_v2]. *)
Definition evaluation_v2 (question : string) (eval_df : list EvalCase) : M unit :=
  evaluation (fun q => get_result_v2 q SYSTEM_PROMPT_v2) question eval_df.

(** Cells 7 and 9, a single run: [sql_query, df = get_result(question)]. *)
Definition single_run (get_result : string -> M result) (question : string)
    : M (json * DataFrame) :=
  value <- get_result question ;;
  lift (unpack value).

(** *** Vocabulary of the statements below *)

(** The request [get_result_v1] sends. *)
Definition request_v1 (user_question system_prompt : string) : chat_request :=
  {| rq_model := "gpt-3.5-turbo-0125"; rq_temperature := temperature_0;
     rq_tools := [read_data_tool];
     rq_messages := [Msg "system" system_prompt; Msg "user" user_question] |}.

(** The requests [get_result_v2] sends: the conversation so far, with
    both tools. *)
Definition request_v2 (messages : list message) : chat_request :=
  {| rq_model := "gpt-3.5-turbo-0125"; rq_temperature := temperature_0;
     rq_tools := [get_schema_tool; read_data_tool];
     rq_messages := messages |}.

(** The first tool-invocation request of a response message, as the code
    takes it: [response_message.tool_calls[0]]. *)
Definition first_call (m : ChatCompletionMessage) : outcome tool_call :=
  py_index_opt (tool_calls m) 0.

(** The branch [if function_name == "read_data":] of both functions. *)
Definition call_read_data (tool_call : tool_call) : M result :=
  arguments <- lift (loads (tc_arguments tool_call)) ;;
  sql_query <- lift (json_getitem arguments "query") ;;
  df <- read_data sql_query ;;
  ret (Some (sql_query, df)).

(** The conversation [get_result_v2] starts with, and the one it sends
    after the schema has been read. *)
Definition opening (user_question system_prompt : string) : list message :=
  [Msg "system" system_prompt; Msg "user" user_question].

Definition with_schema (user_question system_prompt : string)
    (m : ChatCompletionMessage) (tc : tool_call) (s : Schema) : list message :=
  opening user_question system_prompt ++
  [AssistantMsg m; ToolMsg (tc_id tc) "tool" (tc_name tc) (str_schema s)].

(** Two replies that differ at most in what follows the first
    tool-invocation request of their first choice. *)
Definition same_first_call (r r' : api_reply) : Prop :=
  match r, r' with
  | Raise e, Raise e' => e = e'
  | Ret [], Ret [] => True
  | Ret (m :: _), Ret (m' :: _) => first_call m = first_call m'
  | _, _ => False
  end.

(** Two worlds that differ at most in the conversation log and in what
    follows the first tool-invocation request of each reply. *)
Definition same_but_later_calls (w w' : world) : Prop :=
  w_db w = w_db w' /\ w_dblog w = w_dblog w' /\ w_stdout w = w_stdout w' /\
  length (w_requests w) = length (w_requests w') /\
  forall n, same_first_call (w_llm w n) (w_llm w' n).

Definition is_cursor_execute (e : db_event) : bool :=
  match e with
  | CursorExecute _ _ => true
  | _ => false
  end.

(** No cell of the frame is a NaN: every cell is equal to itself. *)
Definition self_equal (df : DataFrame) : Prop :=
  Forall (Forall (fun x => scalar_eqb x x = true)) (rows df).

End Notebook.

Notation "x <- m ;; k" := (bind m (fun x => k))
  (at level 61, m at next level, right associativity) : py_scope.
Notation "m ;;; k" := (bind m (fun _ => k))
  (at level 61, right associativity) : py_scope.

(** ** A small concrete runtime

    A database given by its catalogue and by the result sets of the
    statements it answers; every other statement is an error.  It is used
    to run the code on concrete inputs. *)

Module Sample.

Record db : Type := mkDb {
  catalogue : list (string * list string);
  answers : list (string * DataFrame)
}.

(** The rows of [PRAGMA table_info]: cid, name, type, notnull, dflt_value, pk. *)
Fixpoint table_info (cid : Z) (cols : list string) : list (list scalar) :=
  match cols with
  | [] => []
  | c :: cols' =>
      [SInt cid; SText c; SText "TEXT"; SInt 0; SNone; SInt 0]
        :: table_info (cid + 1) cols'
  end.

Definition sample_execute (d : db) (sql : string) : option (list (list scalar)) :=
  if String.eqb sql "SELECT name FROM sqlite_master WHERE type='table';"
  then Some (map (fun t => [SText (fst t)]) (catalogue d))
  else
    match find (fun t => String.eqb sql ("PRAGMA table_info('" ++ fst t ++ "')")%string)
               (catalogue d) with
    | Some t => Some (table_info 0 (snd t))
    | None => None
    end.

Definition sample_read (d : db) (sql : string) : option DataFrame :=
  dict_get (answers d) sql.

Definition dquote : string := String (ascii_of_nat 34) EmptyString.

Definition query_prefix : string :=
  ("{" ++ dquote ++ "query" ++ dquote ++ ": " ++ dquote)%string.

Definition query_suffix : string := (dquote ++ "}")%string.

(** The argument text of a [read_data] call for the statement [sql]. *)
Definition query_arguments (sql : string) : string :=
  (query_prefix ++ sql ++ query_suffix)%string.

(** A reader for the objects with the one field [query], and for [{}]. *)
Definition sample_loads (text : string) : option json :=
  let n := String.length text in
  let p := String.length query_prefix in
  let s := String.length query_suffix in
  if String.eqb text "{}" then Some (JDict [])
  else if (p + s <=? n) && String.prefix query_prefix text
          && String.eqb (String.substring (n - s) s text) query_suffix
  then Some (JDict [("query", JStr (String.substring p (n - p - s) text))])
  else None.

Definition sample_str (v : scalar) : string :=
  match v with
  | SText s => s
  | SInt z => NilEmpty.string_of_int (Z.to_int z)
  | SNone => "None"
  | SFloat _ => "nan"
  | SBlob b => b
  end.

Definition sample_repr (v : scalar) : string :=
  match v with
  | SText s => ("'" ++ s ++ "'")%string
  | _ => sample_str v
  end.

#[export] Instance runtime : Runtime := {|
  database := db;
  cursor_execute := sample_execute;
  read_sql_query := sample_read;
  json_loads := sample_loads;
  py_str := sample_str;
  py_repr := sample_repr
|}.

Definition frame1 (label : string) (v : scalar) : DataFrame :=
  {| columns := [label]; rows := [[v]] |}.

(** Two tables; three statements are answered. *)
Definition shop : db :=
  {| catalogue := [("Orders", ["OrderID"; "ShipCountry"]);
                   ("Regions", ["RegionID"; "RegionDescription"])];
     answers := [("SELECT 1", frame1 "1" (SInt 1));
                 ("SELECT 2", frame1 "2" (SInt 2));
                 ("SELECT COUNT(*) FROM Orders WHERE ShipCountry = 'Brazil'",
                  frame1 "COUNT(*)" (SInt 3))] |}.

(** The same database before the table [Regions] was created. *)
Definition shop_before : db :=
  {| catalogue := [("Orders", ["OrderID"; "ShipCountry"])];
     answers := answers shop |}.

Definition call (name arguments : string) : tool_call :=
  {| tc_id := "call_1"; tc_name := name; tc_arguments := arguments |}.

(** A reply with one choice, carrying the given tool calls. *)
Definition reply (calls : option (list tool_call)) : api_reply :=
  Ret [{| content := None; tool_calls := calls |}].

(** A world with nothing done yet. *)
Definition fresh (d : db) (llm : nat -> api_reply) : world :=
  {| w_db := d; w_llm := llm; w_requests := []; w_dblog := []; w_stdout := [] |}.

(** The model asks for the schema first and for the data next. *)
Definition two_step (sql : string) (n : nat) : api_reply :=
  match n with
  | 0 => reply (Some [call "get_schema" "{}"])
  | _ => reply (Some [call "read_data" (query_arguments sql)])
  end.

(** The model asks for the data at once, whatever the request. *)
Definition one_step (sql : string) (n : nat) : api_reply :=
  reply (Some [call "read_data" (query_arguments sql)]).

(** The model answers without a tool-invocation request. *)
Definition no_call (n : nat) : api_reply := reply None.

(** The model always asks for the tool [name], with no arguments. *)
Definition always (name : string) (n : nat) : api_reply :=
  reply (Some [call name "{}"]).

(** As [one_step], with a second request after the first in each reply. *)
Definition one_step_and_more (sql extra : string) (n : nat) : api_reply :=
  reply (Some [call "read_data" (query_arguments sql);
               call "read_data" (query_arguments extra)]).

(** The variable [question] as the notebook leaves it before the
    evaluation cells (cell 12). *)
Definition question : string :=
  "
How many customers ordered more than 20 units of products?
".

(** The value of [SYSTEM_PROMPT_v1] when it is built on [shop_before]. *)
Definition prompt_before : string :=
  match fst (SYSTEM_PROMPT_v1 (fresh shop_before no_call)) with
  | Ret text => text
  | Raise _ => ""
  end.

Definition brazil_case : EvalCase :=
  {| Question := "How many orders were shipped to Brazil?";
     Answer := "SELECT COUNT(*) FROM Orders WHERE ShipCountry = 'Brazil'" |}.

Definition one_case : EvalCase :=
  {| Question := "What is one?"; Answer := "SELECT 1" |}.

(** A row whose reference statement is not SQL. *)
Definition broken_case : EvalCase :=
  {| Question := "What is two?"; Answer := "SELEC 2" |}.

Definition nan : scalar := SFloat S754_nan.

End Sample.

(** ** Further vocabulary *)

(** The cell of a frame at row [i] and column [j]. *)
Definition cell (df : DataFrame) (i j : nat) : option scalar :=
  match nth_error (rows df) i with
  | Some r => nth_error r j
  | None => None
  end.

(** No cell of the frame is a float: its columns hold integers, text,
    blobs and [None], and numpy compares such values as they are, with
    no conversion to a common floating-point type. *)
Definition float_free (df : DataFrame) : Prop :=
  Forall (Forall (fun x => match x with SFloat _ => False | _ => True end))
         (rows df).

(** Two sizes of one dimension that numpy broadcasts. *)
Definition broadcastable (n m : nat) : Prop := n = m \/ n = 1 \/ m = 1.

(** The statements executed through [pd.read_sql_query]. *)
Definition is_read_sql_query (e : db_event) : bool :=
  match e with
  | ReadSqlQuery _ _ => true
  | _ => false
  end.

(** No two entries of a schema have equal keys. *)
Definition distinct_keys (s : list (scalar * list scalar)) : Prop :=
  ForallOrdPairs (fun e1 e2 => scalar_eqb (fst e1) (fst e2) = false) s.

Section Observations.

Context {rt : Runtime}.
Local Open Scope py_scope.

(** The two statements [get_schema] executes. *)
Definition catalogue_statement : string :=
  "SELECT name FROM sqlite_master WHERE type='table';".

Definition table_info_statement (table_name : scalar) : string :=
  ("PRAGMA table_info('" ++ py_str table_name ++ "')")%string.

(** What the database tells about one row of the catalogue: the name in
    its first field, and the second field of every row of its
    [PRAGMA table_info]. *)
Definition entry_of (db : database) (table : list scalar)
    (entry : scalar * list scalar) : Prop :=
  exists columns,
    py_index table 0 = Ret (fst entry) /\
    cursor_execute db (table_info_statement (fst entry)) = Some columns /\
    comprehension (fun column => py_index column 1) columns = Ret (snd entry).

End Observations.

Module Scenarios.

Import Sample.

(** The endpoint cannot be reached. *)
Definition api_down (n : nat) : api_reply := Raise APIError.


(** The model asks for the schema and, in the same response, for a
    statement; then for two statements at once. *)
Definition two_step_and_more (sql extra : string) (n : nat) : api_reply :=
  match n with
  | 0 => reply (Some [call "get_schema" "{}";
                      call "read_data" (query_arguments extra)])
  | _ => reply (Some [call "read_data" (query_arguments sql);
                      call "read_data" (query_arguments extra)])
  end.

(** A frame of one column. *)
Definition column_frame (label : string) (values : list scalar) : DataFrame :=
  {| columns := [label]; rows := map (fun v => [v]) values |}.

(** The database [shop] with two more statements answered, by three rows
    and by two. *)
Definition shop_with_rows : db :=
  {| catalogue := catalogue shop;
     answers := ("SELECT 3 FROM Orders",
                 column_frame "3" [SInt 3; SInt 3; SInt 3]) ::
                ("SELECT 2 FROM Regions",
                 column_frame "2" [SInt 2; SInt 2]) :: answers shop |}.

(** The endpoint answers the first request, by a request for the schema,
    and cannot be reached after. *)
Definition down_after_schema (n : nat) : api_reply :=
  match n with
  | 0 => reply (Some [call "get_schema" "{}"])
  | _ => Raise APIError
  end.

(** The schema of [shop]. *)
Definition shop_schema : list (scalar * list scalar) :=
  [(SText "Orders", [SText "OrderID"; SText "ShipCountry"]);
   (SText "Regions", [SText "RegionID"; SText "RegionDescription"])].

Definition three_rows_case : EvalCase :=
  {| Question := "What is three, for every order?";
     Answer := "SELECT 3 FROM Orders" |}.

End Scenarios.


(** * Properties *)

Section Properties.

Context {rt : Runtime}.
Local Open Scope py_scope.
#[local] Arguments String.append : simpl never.

(** ** The world record *)

Lemma set_dblog_same (w : world) : set_dblog (w_dblog w) w = w.
Proof. destruct w; reflexivity. Qed.

Lemma set_dblog_twice (l1 l2 : list db_event) (w : world) :
  set_dblog l2 (set_dblog l1 w) = set_dblog l2 w.
Proof. reflexivity. Qed.

Lemma add_request_set_dblog (rq : chat_request) (l : list db_event) (w : world) :
  add_request rq (set_dblog l w) = set_dblog l (add_request rq w).
Proof. reflexivity. Qed.

(** ** What [get_schema] does to the world *)

(** One turn of the loop: at most one statement is executed. *)
Lemma add_table_run (c : nat) (acc : Schema) (table : list scalar) (w : world) :
  add_table c acc table w =
  match py_index table 0 with
  | Raise e => (Raise e, w)
  | Ret table_name =>
      let sql := ("PRAGMA table_info('" ++ py_str table_name ++ "')")%string in
      let w' := set_dblog (w_dblog w ++ [CursorExecute c sql]) w in
      match cursor_execute (w_db w) sql with
      | None => (Raise DatabaseError, w')
      | Some columns =>
          match comprehension (fun column => py_index column 1) columns with
          | Raise e => (Raise e, w')
          | Ret names => (Ret (dict_set acc table_name names), w')
          end
      end
  end.
Proof.
  unfold add_table, bind, lift, execute_fetchall, ret, add_db_event.
  destruct (py_index table 0) as [table_name|e]; [|reflexivity].
  cbv zeta.
  destruct (cursor_execute (w_db w) _) as [columns|]; [|reflexivity].
  destruct (comprehension _ columns); reflexivity.
Qed.

(** The loop over the tables only adds [cursor.execute] events; its
    outcome and the events depend on the database and on nothing else. *)
Lemma schema_loop_frame (c : nat) (tables : list (list scalar)) :
  forall (db : database) (log : list db_event) (acc : Schema),
  exists (o : outcome Schema) (l : list db_event),
    forallb is_cursor_execute l = true /\
    forall w, w_db w = db -> w_dblog w = log ->
      for_each tables (add_table c) acc w = (o, set_dblog (log ++ l) w).
Proof.
  induction tables as [|table tables IH]; intros db log acc.
  - exists (Ret acc), []. split; [reflexivity|].
    intros w _ Hlog. simpl. unfold ret. rewrite app_nil_r, <- Hlog.
    now rewrite set_dblog_same.
  - assert (Hstep : forall w, for_each (table :: tables) (add_table c) acc w =
              match add_table c acc table w with
              | (Ret acc', w') => for_each tables (add_table c) acc' w'
              | (Raise e, w') => (Raise e, w')
              end) by reflexivity.
    destruct (py_index table 0) as [table_name|e] eqn:Hname.
    2:{ exists (Raise e), []. split; [reflexivity|].
        intros w _ Hlog. rewrite Hstep, add_table_run, Hname, app_nil_r, <- Hlog.
        now rewrite set_dblog_same. }
    set (sql := ("PRAGMA table_info('" ++ py_str table_name ++ "')")%string).
    destruct (cursor_execute db sql) as [columns|] eqn:Hexec.
    2:{ exists (Raise DatabaseError), [CursorExecute c sql].
        split; [reflexivity|].
        intros w Hdb Hlog. rewrite Hstep, add_table_run, Hname. cbv zeta.
        fold sql. rewrite Hdb, Hexec, Hlog. reflexivity. }
    destruct (comprehension (fun column => py_index column 1) columns)
      as [names|e] eqn:Hcomp.
    2:{ exists (Raise e), [CursorExecute c sql]. split; [reflexivity|].
        intros w Hdb Hlog. rewrite Hstep, add_table_run, Hname. cbv zeta.
        fold sql. rewrite Hdb, Hexec, Hcomp, Hlog. reflexivity. }
    destruct (IH db (log ++ [CursorExecute c sql])
                 (dict_set acc table_name names)) as (o & l & Hl & Hrun).
    exists o, (CursorExecute c sql :: l). split; [simpl; exact Hl|].
    intros w Hdb Hlog. rewrite Hstep, add_table_run, Hname. cbv zeta.
    fold sql. rewrite Hdb, Hexec, Hcomp, Hlog.
    rewrite (Hrun (set_dblog (log ++ [CursorExecute c sql]) w)); try reflexivity.
    + rewrite set_dblog_twice, <- app_assoc. reflexivity.
    + exact Hdb.
Qed.

(** [get_schema] unfolded up to its loop. *)
Lemma get_schema_run (w : world) :
  get_schema w =
  let c := length (w_dblog w) in
  let sql := "SELECT name FROM sqlite_master WHERE type='table';" in
  let w' := set_dblog (w_dblog w ++ [Connect c; CursorExecute c sql]) w in
  match cursor_execute (w_db w) sql with
  | None => (Raise DatabaseError, w')
  | Some tables => for_each tables (add_table c) [] w'
  end.
Proof.
  unfold get_schema, bind, sqlite3_connect, execute_fetchall, add_db_event.
  cbn [w_db w_dblog set_dblog]. rewrite <- app_assoc. cbn [app].
  destruct (cursor_execute (w_db w) _); reflexivity.
Qed.

(** [get_schema] opens one connection, adds [cursor.execute] events after
    it and nothing else; its outcome depends on the database only. *)
Lemma get_schema_frame (db : database) (log : list db_event) :
  exists (o : outcome Schema) (l : list db_event),
    forallb is_cursor_execute l = true /\
    forall w, w_db w = db -> w_dblog w = log ->
      get_schema w = (o, set_dblog (log ++ Connect (length log) :: l) w).
Proof.
  set (c := length log).
  set (sql := "SELECT name FROM sqlite_master WHERE type='table';").
  destruct (cursor_execute db sql) as [tables|] eqn:Hexec.
  - destruct (schema_loop_frame c tables db
                (log ++ [Connect c; CursorExecute c sql]) [])
      as (o & l & Hl & Hrun).
    exists o, (CursorExecute c sql :: l). split; [exact Hl|].
    intros w Hdb Hlog. rewrite get_schema_run. cbv zeta.
    rewrite Hdb, Hlog. fold c sql. rewrite Hexec.
    rewrite Hrun; [|exact Hdb|reflexivity].
    rewrite set_dblog_twice, <- app_assoc. reflexivity.
  - exists (Raise DatabaseError), [CursorExecute c sql].
    split; [reflexivity|].
    intros w Hdb Hlog. rewrite get_schema_run. cbv zeta.
    rewrite Hdb, Hlog. fold c sql. rewrite Hexec. reflexivity.
Qed.

(** ** What [read_data] does to the world *)

Lemma read_data_run (query : json) (w : world) :
  read_data query w =
  let c := length (w_dblog w) in
  match run_query (w_db w) query with
  | Ret df =>
      (Ret df, set_dblog (w_dblog w ++ [Connect c; ReadSqlQuery c query; Close c]) w)
  | Raise e =>
      (Raise e, set_dblog (w_dblog w ++ [Connect c; ReadSqlQuery c query]) w)
  end.
Proof.
  unfold read_data, bind, sqlite3_connect, pd_read_sql_query, conn_close,
    add_db_event, ret.
  cbn [w_db w_dblog set_dblog].
  destruct (run_query (w_db w) query); cbn [w_dblog set_dblog];
    rewrite <- ?app_assoc; reflexivity.
Qed.

(** A call of [read_data] requested by the model: the argument text is
    parsed, its field [query] is taken and executed. *)
Lemma call_read_data_run (tc : tool_call) (w : world) :
  call_read_data tc w =
  match loads (tc_arguments tc) with
  | Raise e => (Raise e, w)
  | Ret arguments =>
      match json_getitem arguments "query" with
      | Raise e => (Raise e, w)
      | Ret sql_query =>
          match read_data sql_query w with
          | (Ret df, w') => (Ret (Some (sql_query, df)), w')
          | (Raise e, w') => (Raise e, w')
          end
      end
  end.
Proof.
  unfold call_read_data, bind, lift, ret.
  destruct (loads (tc_arguments tc)); [|reflexivity].
  destruct (json_getitem a "query"); [|reflexivity].
  destruct (read_data a0 w) as [[df|e] w']; reflexivity.
Qed.

(** ** The two orchestration routines, step by step *)

(** The dispatch on a response: its first choice, the first
    tool-invocation request of that choice, and the branch on the name.
    [other] is what happens when the name is not the expected one. *)
Lemma get_result_v1_run (q sp : string) (w : world) :
  get_result_v1 q sp w =
  let w1 := add_request (request_v1 q sp) w in
  match w_llm w (length (w_requests w)) with
  | Raise e => (Raise e, w1)
  | Ret response =>
      match py_index response 0 with
      | Raise e => (Raise e, w1)
      | Ret m =>
          match first_call m with
          | Raise e => (Raise e, w1)
          | Ret tc =>
              if String.eqb (tc_name tc) "read_data"
              then call_read_data tc w1
              else (Ret None, w1)
          end
      end
  end.
Proof.
  unfold get_result_v1, bind at 1, chat_completions_create. cbv zeta.
  fold (request_v1 q sp).
  destruct (w_llm w (length (w_requests w))) as [response|e]; [|reflexivity].
  unfold bind at 1, lift at 1.
  destruct (py_index response 0) as [m|e]; [|reflexivity].
  unfold bind at 1, lift at 1. fold (first_call m).
  destruct (first_call m) as [tc|e]; [|reflexivity].
  destruct (String.eqb (tc_name tc) "read_data"); reflexivity.
Qed.

Lemma get_result_v2_run (q sp : string) (w : world) :
  get_result_v2 q sp w =
  let w1 := add_request (request_v2 (opening q sp)) w in
  match w_llm w (length (w_requests w)) with
  | Raise e => (Raise e, w1)
  | Ret response =>
      match py_index response 0 with
      | Raise e => (Raise e, w1)
      | Ret m =>
          match first_call m with
          | Raise e => (Raise e, w1)
          | Ret tc =>
              if String.eqb (tc_name tc) "get_schema"
              then
                match get_schema w1 with
                | (Raise e, w2) => (Raise e, w2)
                | (Ret s, w2) =>
                    let w3 := add_request (request_v2 (with_schema q sp m tc s)) w2 in
                    match w_llm w2 (length (w_requests w2)) with
                    | Raise e => (Raise e, w3)
                    | Ret second_response =>
                        match py_index second_response 0 with
                        | Raise e => (Raise e, w3)
                        | Ret m2 =>
                            match first_call m2 with
                            | Raise e => (Raise e, w3)
                            | Ret tc2 =>
                                if String.eqb (tc_name tc2) "read_data"
                                then call_read_data tc2 w3
                                else (Ret None, w3)
                            end
                        end
                    end
                end
              else (Ret None, w1)
          end
      end
  end.
Proof.
  unfold get_result_v2, bind at 1, chat_completions_create. cbv zeta.
  fold (opening q sp). fold (request_v2 (opening q sp)).
  destruct (w_llm w (length (w_requests w))) as [response|e]; [|reflexivity].
  unfold bind at 1, lift at 1.
  destruct (py_index response 0) as [m|e]; [|reflexivity].
  unfold bind at 1, lift at 1. fold (first_call m).
  destruct (first_call m) as [tc|e]; [|reflexivity].
  destruct (String.eqb (tc_name tc) "get_schema"); [|reflexivity].
  unfold bind at 1.
  destruct (get_schema _) as [[s|e] w2]; [|reflexivity].
  unfold bind at 1. unfold with_schema.
  rewrite <- app_assoc. cbn [app].
  change (opening q sp ++ [AssistantMsg m; ToolMsg (tc_id tc) "tool" (tc_name tc) (str_schema s)])
    with (with_schema q sp m tc s).
  fold (request_v2 (with_schema q sp m tc s)).
  destruct (w_llm w2 (length (w_requests w2))) as [second|e]; [|reflexivity].
  unfold bind at 1, lift at 1.
  destruct (py_index second 0) as [m2|e]; [|reflexivity].
  unfold bind at 1, lift at 1. fold (first_call m2).
  destruct (first_call m2) as [tc2|e]; [|reflexivity].
  destruct (String.eqb (tc_name tc2) "read_data"); reflexivity.
Qed.

(** [get_schema] leaves the model, the conversation log and the console
    alone. *)
Lemma get_schema_keeps (w w' : world) (o : outcome Schema) :
  get_schema w = (o, w') ->
  w_db w' = w_db w /\ w_llm w' = w_llm w /\ w_requests w' = w_requests w /\
  w_stdout w' = w_stdout w /\
  exists l, forallb is_cursor_execute l = true /\
            w_dblog w' = w_dblog w ++ Connect (length (w_dblog w)) :: l.
Proof.
  intros Hrun.
  destruct (get_schema_frame (w_db w) (w_dblog w)) as (o' & l & Hl & Hf).
  rewrite (Hf w eq_refl eq_refl) in Hrun. inversion Hrun; subst.
  repeat split; try reflexivity. exists l. split; [exact Hl|reflexivity].
Qed.

(** ** Open connections *)

Lemma open_conns_app (l1 l2 : list db_event) :
  forall acc, open_conns (l1 ++ l2) acc = open_conns l2 (open_conns l1 acc).
Proof.
  induction l1 as [|e l1 IH]; intros acc; [reflexivity|].
  destruct e; simpl; apply IH.
Qed.

Lemma open_conns_cursor_executes (l : list db_event) :
  forallb is_cursor_execute l = true ->
  forall acc, open_conns l acc = acc.
Proof.
  induction l as [|e l IH]; intros Hl acc; [reflexivity|].
  simpl in Hl. apply andb_prop in Hl as [He Hl].
  destruct e; try discriminate. simpl. now apply IH.
Qed.

(** [read_data] closes its connection when the statement succeeds, and
    leaves it open when [read_sql_query] raises: [conn.close()] is then
    never reached. *)
Lemma read_data_closes_on_success (query : json) (w : world) (df : DataFrame) :
  run_query (w_db w) query = Ret df ->
  ~ In (length (w_dblog w)) (open_conns (w_dblog (snd (read_data query w))) []).
Proof.
  intros Hq. rewrite read_data_run. cbv zeta. rewrite Hq. cbn [snd set_dblog w_dblog].
  rewrite open_conns_app. simpl. intros Hin. apply filter_In in Hin as [_ Hin].
  now rewrite Nat.eqb_refl in Hin.
Qed.

Lemma read_data_leaks_on_error (query : json) (w : world) (e : exn) :
  run_query (w_db w) query = Raise e ->
  In (length (w_dblog w)) (open_conns (w_dblog (snd (read_data query w))) []).
Proof.
  intros Hq. rewrite read_data_run. cbv zeta. rewrite Hq. cbn [snd set_dblog w_dblog].
  rewrite open_conns_app. simpl. apply in_or_app. right. now left.
Qed.

(** C7, where the code departs from it.  [get_schema] never calls
    [conn.close()]: whatever the world and whatever the outcome, the
    connection it opened is still open when it returns or raises. *)
Theorem get_schema_leaves_its_connection_open :
  forall w : world,
    In (length (w_dblog w)) (open_conns (w_dblog (snd (get_schema w))) []).
Proof.
  intros w.
  destruct (get_schema_frame (w_db w) (w_dblog w)) as (o & l & Hl & Hf).
  rewrite (Hf w eq_refl eq_refl). cbn [snd set_dblog w_dblog].
  rewrite open_conns_app. simpl.
  rewrite (open_conns_cursor_executes l Hl).
  apply in_or_app. right. now left.
Qed.

(** ** Worlds that differ in the later tool-invocation requests only *)

Lemma same_add_request (rq rq' : chat_request) (w w' : world) :
  same_but_later_calls w w' ->
  same_but_later_calls (add_request rq w) (add_request rq' w').
Proof.
  intros (Hdb & Hlog & Hout & Hlen & Hllm).
  repeat split; try assumption.
  cbn [w_requests add_request]. rewrite !length_app, Hlen. reflexivity.
Qed.

Lemma same_set_dblog (l : list db_event) (w w' : world) :
  same_but_later_calls w w' ->
  same_but_later_calls (set_dblog l w) (set_dblog l w').
Proof.
  intros (Hdb & Hlog & Hout & Hlen & Hllm). repeat split; assumption.
Qed.

Lemma read_data_agree (query : json) (w w' : world) :
  same_but_later_calls w w' ->
  fst (read_data query w) = fst (read_data query w') /\
  same_but_later_calls (snd (read_data query w)) (snd (read_data query w')).
Proof.
  intros Hsame. pose proof Hsame as (Hdb & Hlog & _).
  rewrite !read_data_run. cbv zeta. rewrite <- Hdb, <- Hlog.
  destruct (run_query (w_db w) query); cbn [fst snd];
    (split; [reflexivity|now apply same_set_dblog]).
Qed.

Lemma call_read_data_agree (tc : tool_call) (w w' : world) :
  same_but_later_calls w w' ->
  fst (call_read_data tc w) = fst (call_read_data tc w') /\
  same_but_later_calls (snd (call_read_data tc w)) (snd (call_read_data tc w')).
Proof.
  intros Hsame. rewrite !call_read_data_run.
  destruct (loads (tc_arguments tc)) as [arguments|e]; [|now split].
  destruct (json_getitem arguments "query") as [sql_query|e]; [|now split].
  destruct (read_data_agree sql_query w w' Hsame) as (Hfst & Hsnd).
  destruct (read_data sql_query w) as [[df|e] w1],
           (read_data sql_query w') as [[df'|e'] w1'];
    cbn [fst snd] in *; try discriminate; split; congruence.
Qed.

Lemma get_schema_agree (w w' : world) :
  same_but_later_calls w w' ->
  fst (get_schema w) = fst (get_schema w') /\
  same_but_later_calls (snd (get_schema w)) (snd (get_schema w')).
Proof.
  intros Hsame. pose proof Hsame as (Hdb & Hlog & _).
  destruct (get_schema_frame (w_db w) (w_dblog w)) as (o & l & _ & Hf).
  rewrite (Hf w eq_refl eq_refl), (Hf w' (eq_sym Hdb) (eq_sym Hlog)).
  cbn [fst snd]. split; [reflexivity|now apply same_set_dblog].
Qed.

(** ** Claims on the single-pass routine *)

(** C8. When the response of the model carries no tool-invocation request
    ([tool_calls] is [None], or an empty list), [get_result_v1] raises
    ([TypeError] or [IndexError] from [tool_calls[0]]) after its one
    request: it returns no result. *)
Theorem get_result_v1_without_tool_call_raises :
  forall (q sp : string) (w : world)
         (m : ChatCompletionMessage) (others : list ChatCompletionMessage),
    w_llm w (length (w_requests w)) = Ret (m :: others) ->
    tool_calls m = None \/ tool_calls m = Some [] ->
    exists e,
      get_result_v1 q sp w = (Raise e, add_request (request_v1 q sp) w) /\
      (e = TypeError \/ e = IndexError).
Proof.
  intros q sp w m others Hreply Hcalls.
  rewrite get_result_v1_run, Hreply. cbv zeta. cbn [py_index nth_error].
  unfold first_call.
  destruct Hcalls as [-> | ->]; cbn.
  - exists TypeError. split; [reflexivity|now left].
  - exists IndexError. split; [reflexivity|now right].
Qed.

(** ** Claims on the two-pass routine *)

(** C1, as the code has it.  When the first tool-invocation request of
    the first response names [read_data], [get_result_v2] makes no second
    request and executes nothing on the database, and it returns [None]:
    no pair [(sql_query, df)] is produced. *)
Theorem get_result_v2_first_call_read_data :
  forall (q sp : string) (w : world)
         (m : ChatCompletionMessage) (others : list ChatCompletionMessage)
         (tc : tool_call),
    w_llm w (length (w_requests w)) = Ret (m :: others) ->
    first_call m = Ret tc ->
    tc_name tc = "read_data" ->
    get_result_v2 q sp w =
      (Ret None, add_request (request_v2 (opening q sp)) w).
Proof.
  intros q sp w m others tc Hreply Hfirst Hname.
  rewrite get_result_v2_run, Hreply. cbv zeta. cbn [py_index nth_error].
  rewrite Hfirst, Hname. reflexivity.
Qed.

(** ** The conversation that reaches the model *)

Lemma call_read_data_keeps_requests (tc : tool_call) (w : world) :
  w_requests (snd (call_read_data tc w)) = w_requests w.
Proof.
  rewrite call_read_data_run.
  destruct (loads (tc_arguments tc)) as [arguments|e]; [|reflexivity].
  destruct (json_getitem arguments "query") as [sql_query|e]; [|reflexivity].
  rewrite read_data_run. cbv zeta.
  destruct (run_query (w_db w) sql_query); reflexivity.
Qed.

(** C5, as the code has it.  [get_result_v1] sends the [system_prompt] it
    was given, word for word, whatever the database holds at the time of
    the call: the schema text in it is the one read when the prompt was
    built, by [SYSTEM_PROMPT_v1] in the world of that time.
    [get_result_v2] sends the text of the schema that
    [get_schema] reads during the run, after the first response asked
    for it. *)
Theorem schema_text_sent_to_the_model :
  (forall (w0 w0' : world) (s0 : Schema),
      get_schema w0 = (Ret s0, w0') ->
      SYSTEM_PROMPT_v1 w0 = (Ret (system_prompt_v1_text (str_schema s0)), w0')) /\
  (forall (q sp : string) (w : world),
      w_requests (snd (get_result_v1 q sp w)) =
        w_requests w ++ [request_v1 q sp]) /\
  (forall (q sp : string) (w w2 : world) (s : Schema)
          (m : ChatCompletionMessage) (others : list ChatCompletionMessage)
          (tc : tool_call),
      w_llm w (length (w_requests w)) = Ret (m :: others) ->
      first_call m = Ret tc ->
      tc_name tc = "get_schema" ->
      get_schema (add_request (request_v2 (opening q sp)) w) = (Ret s, w2) ->
      w_requests (snd (get_result_v2 q sp w)) =
        w_requests w ++ [request_v2 (opening q sp);
                         request_v2 (opening q sp ++
                           [AssistantMsg m;
                            ToolMsg (tc_id tc) "tool" "get_schema" (str_schema s)])]).
Proof.
  split; [|split].
  - intros w0 w0' s0 Hschema. unfold SYSTEM_PROMPT_v1, bind.
    rewrite Hschema. reflexivity.
  - intros q sp w. rewrite get_result_v1_run. cbv zeta.
    destruct (w_llm w (length (w_requests w))) as [response|e]; [|reflexivity].
    destruct (py_index response 0) as [m|e]; [|reflexivity].
    destruct (first_call m) as [tc|e]; [|reflexivity].
    destruct (String.eqb (tc_name tc) "read_data"); [|reflexivity].
    now rewrite call_read_data_keeps_requests.
  - intros q sp w w2 s m others tc Hreply Hfirst Hname Hschema.
    rewrite get_result_v2_run, Hreply. cbv zeta. cbn [py_index nth_error].
    rewrite Hfirst, Hname. cbn [String.eqb Ascii.eqb Bool.eqb].
    rewrite Hschema.
    destruct (get_schema_keeps _ _ _ Hschema) as (_ & _ & Hreq & _).
    assert (Hsent : w_requests
              (add_request (request_v2 (with_schema q sp m tc s)) w2) =
            w_requests w ++ [request_v2 (opening q sp);
                             request_v2 (opening q sp ++
                               [AssistantMsg m;
                                ToolMsg (tc_id tc) "tool" "get_schema"
                                  (str_schema s)])]).
    { cbn [w_requests add_request]. rewrite Hreq. cbn [w_requests add_request].
      unfold with_schema. rewrite Hname, <- app_assoc. reflexivity. }
    destruct (w_llm w2 (length (w_requests w2))) as [second|e]; [|exact Hsent].
    destruct (py_index second 0) as [m2|e]; [|exact Hsent].
    destruct (first_call m2) as [tc2|e]; [|exact Hsent].
    destruct (String.eqb (tc_name tc2) "read_data"); [|exact Hsent].
    now rewrite call_read_data_keeps_requests.
Qed.

(** ** Claims on both routines *)

(** C6. When the first tool-invocation request at the step that should
    execute the query names another tool than [read_data], no pair is
    produced, no further request is sent and no statement is executed:
    the routine returns [None], and the caller's unpacking of the result
    ([sql_query, df = get_result(question)]) raises [TypeError].  This
    holds for [get_result_v1], for the first response of [get_result_v2]
    when it names neither tool, and for its second response. *)
Theorem unexpected_tool_name_gives_no_result :
  (forall (q sp : string) (w : world)
          (m : ChatCompletionMessage) (others : list ChatCompletionMessage)
          (tc : tool_call),
      w_llm w (length (w_requests w)) = Ret (m :: others) ->
      first_call m = Ret tc ->
      String.eqb (tc_name tc) "read_data" = false ->
      get_result_v1 q sp w = (Ret None, add_request (request_v1 q sp) w) /\
      single_run (fun q => get_result_v1 q sp) q w =
        (Raise TypeError, add_request (request_v1 q sp) w)) /\
  (forall (q sp : string) (w : world)
          (m : ChatCompletionMessage) (others : list ChatCompletionMessage)
          (tc : tool_call),
      w_llm w (length (w_requests w)) = Ret (m :: others) ->
      first_call m = Ret tc ->
      String.eqb (tc_name tc) "get_schema" = false ->
      String.eqb (tc_name tc) "read_data" = false ->
      get_result_v2 q sp w = (Ret None, add_request (request_v2 (opening q sp)) w) /\
      single_run (fun q => get_result_v2 q sp) q w =
        (Raise TypeError, add_request (request_v2 (opening q sp)) w)) /\
  (forall (q sp : string) (w w2 : world) (s : Schema)
          (m m2 : ChatCompletionMessage) (others others2 : list ChatCompletionMessage)
          (tc tc2 : tool_call),
      w_llm w (length (w_requests w)) = Ret (m :: others) ->
      first_call m = Ret tc ->
      tc_name tc = "get_schema" ->
      get_schema (add_request (request_v2 (opening q sp)) w) = (Ret s, w2) ->
      w_llm w (S (length (w_requests w))) = Ret (m2 :: others2) ->
      first_call m2 = Ret tc2 ->
      String.eqb (tc_name tc2) "read_data" = false ->
      get_result_v2 q sp w =
        (Ret None, add_request (request_v2 (with_schema q sp m tc s)) w2) /\
      single_run (fun q => get_result_v2 q sp) q w =
        (Raise TypeError, add_request (request_v2 (with_schema q sp m tc s)) w2)).
Proof.
  split; [|split].
  - intros q sp w m others tc Hreply Hfirst Hname.
    assert (Hrun : get_result_v1 q sp w =
                   (Ret None, add_request (request_v1 q sp) w)).
    { rewrite get_result_v1_run, Hreply. cbv zeta. cbn [py_index nth_error].
      rewrite Hfirst, Hname. reflexivity. }
    split; [exact Hrun|].
    unfold single_run, bind. rewrite Hrun. reflexivity.
  - intros q sp w m others tc Hreply Hfirst Hschema Hname.
    assert (Hrun : get_result_v2 q sp w =
                   (Ret None, add_request (request_v2 (opening q sp)) w)).
    { rewrite get_result_v2_run, Hreply. cbv zeta. cbn [py_index nth_error].
      rewrite Hfirst, Hschema. reflexivity. }
    split; [exact Hrun|].
    unfold single_run, bind. rewrite Hrun. reflexivity.
  - intros q sp w w2 s m m2 others others2 tc tc2
      Hreply Hfirst Hname Hschema Hreply2 Hfirst2 Hname2.
    assert (Hrun : get_result_v2 q sp w =
              (Ret None, add_request (request_v2 (with_schema q sp m tc s)) w2)).
    { rewrite get_result_v2_run, Hreply. cbv zeta. cbn [py_index nth_error].
      rewrite Hfirst, Hname. cbn [String.eqb Ascii.eqb Bool.eqb].
      rewrite Hschema.
      destruct (get_schema_keeps _ _ _ Hschema) as (_ & Hllm & Hreq & _).
      rewrite Hllm, Hreq. cbn [w_llm w_requests add_request].
      rewrite length_app, Nat.add_1_r, Hreply2. cbn [py_index nth_error].
      rewrite Hfirst2, Hname2. reflexivity. }
    split; [exact Hrun|].
    unfold single_run, bind. rewrite Hrun. reflexivity.
Qed.

(** C9. Of the tool-invocation requests a response carries, only the
    first is acted upon.  The first request is dispatched and executed:
    when a response carries several requests and the first names
    [read_data], [get_result_v1] executes the statement of that first
    request and of no other and returns its frame; in [get_result_v2]
    the first request of the first response makes it read the schema,
    and the first request of the second response is the statement it
    executes, alone.  The requests after the first are never dispatched:
    two runs of either routine in worlds that differ at most in what
    follows the first request of each response (and in the conversation
    sent so far) return the same result, raise the same exception and do
    the same to the database; the worlds they leave differ no more than
    before. *)
Theorem only_the_first_tool_call_is_dispatched :
  (forall (q sp : string) (w w' : world),
    same_but_later_calls w w' ->
    (fst (get_result_v1 q sp w) = fst (get_result_v1 q sp w') /\
     same_but_later_calls (snd (get_result_v1 q sp w))
                          (snd (get_result_v1 q sp w'))) /\
    (fst (get_result_v2 q sp w) = fst (get_result_v2 q sp w') /\
     same_but_later_calls (snd (get_result_v2 q sp w))
                          (snd (get_result_v2 q sp w')))) /\
  (forall (q sp : string) (w : world)
          (m : ChatCompletionMessage) (others : list ChatCompletionMessage)
          (tc : tool_call) (later : list tool_call)
          (arguments : json) (sql : string) (df : DataFrame),
      w_llm w (length (w_requests w)) = Ret (m :: others) ->
      tool_calls m = Some (tc :: later) ->
      tc_name tc = "read_data" ->
      json_loads (tc_arguments tc) = Some arguments ->
      json_getitem arguments "query" = Ret (JStr sql) ->
      read_sql_query (w_db w) sql = Some df ->
      get_result_v1 q sp w =
        (Ret (Some (JStr sql, df)),
         set_dblog (w_dblog w ++ [Connect (length (w_dblog w));
                                  ReadSqlQuery (length (w_dblog w)) (JStr sql);
                                  Close (length (w_dblog w))])
           (add_request (request_v1 q sp) w))) /\
  (forall (q sp : string) (w w2 : world) (s : Schema)
          (m m2 : ChatCompletionMessage)
          (others others2 : list ChatCompletionMessage)
          (tc tc2 : tool_call) (later later2 : list tool_call)
          (arguments : json) (sql : string) (df : DataFrame),
      w_llm w (length (w_requests w)) = Ret (m :: others) ->
      tool_calls m = Some (tc :: later) ->
      tc_name tc = "get_schema" ->
      get_schema (add_request (request_v2 (opening q sp)) w) = (Ret s, w2) ->
      w_llm w (S (length (w_requests w))) = Ret (m2 :: others2) ->
      tool_calls m2 = Some (tc2 :: later2) ->
      tc_name tc2 = "read_data" ->
      json_loads (tc_arguments tc2) = Some arguments ->
      json_getitem arguments "query" = Ret (JStr sql) ->
      read_sql_query (w_db w) sql = Some df ->
      get_result_v2 q sp w =
        (Ret (Some (JStr sql, df)),
         set_dblog (w_dblog w2 ++ [Connect (length (w_dblog w2));
                                   ReadSqlQuery (length (w_dblog w2)) (JStr sql);
                                   Close (length (w_dblog w2))])
           (add_request (request_v2 (with_schema q sp m tc s)) w2))).
Proof.
  split; [|split].
  {
  intros q sp w w' Hsame.
  pose proof Hsame as (_ & _ & _ & Hlen & Hllm).
  split.
  - rewrite !get_result_v1_run. cbv zeta. rewrite <- Hlen.
    pose proof (Hllm (length (w_requests w))) as Hreply.
    pose proof (same_add_request (request_v1 q sp) (request_v1 q sp) _ _ Hsame)
      as Hsame1.
    unfold same_first_call in Hreply.
    destruct (w_llm w (length (w_requests w))) as [[|m ms]|e],
             (w_llm w' (length (w_requests w))) as [[|m' ms']|e'];
      try contradiction; cbn [py_index nth_error fst snd].
    + now split.
    + rewrite <- Hreply.
      destruct (first_call m) as [tc|e]; [|now split].
      destruct (String.eqb (tc_name tc) "read_data"); [|now split].
      now apply call_read_data_agree.
    + subst. now split.
  - rewrite !get_result_v2_run. cbv zeta. rewrite <- Hlen.
    pose proof (Hllm (length (w_requests w))) as Hreply.
    pose proof (same_add_request (request_v2 (opening q sp))
                  (request_v2 (opening q sp)) _ _ Hsame) as Hsame1.
    unfold same_first_call in Hreply.
    destruct (w_llm w (length (w_requests w))) as [[|m ms]|e],
             (w_llm w' (length (w_requests w))) as [[|m' ms']|e'];
      try contradiction; cbn [py_index nth_error fst snd].
    + now split.
    + rewrite <- Hreply.
      destruct (first_call m) as [tc|e]; [|now split].
      destruct (String.eqb (tc_name tc) "get_schema"); [|now split].
      destruct (get_schema_agree _ _ Hsame1) as (Hfst & Hsame2).
      destruct (get_schema (add_request (request_v2 (opening q sp)) w))
        as [[s|e] w2],
        (get_schema (add_request (request_v2 (opening q sp)) w'))
        as [[s'|e'] w2'];
        cbn [fst snd] in Hfst, Hsame2; try discriminate;
        [|injection Hfst as ->; now split].
      injection Hfst as <-.
      pose proof Hsame2 as (_ & _ & _ & Hlen2 & Hllm2).
      rewrite <- Hlen2.
      pose proof (Hllm2 (length (w_requests w2))) as Hreply2.
      pose proof (same_add_request (request_v2 (with_schema q sp m tc s))
                    (request_v2 (with_schema q sp m' tc s)) _ _ Hsame2) as Hsame3.
      unfold same_first_call in Hreply2.
      destruct (w_llm w2 (length (w_requests w2))) as [[|m2 ms2]|e2],
               (w_llm w2' (length (w_requests w2))) as [[|m2' ms2']|e2'];
        try contradiction; cbn [py_index nth_error fst snd].
      * now split.
      * rewrite <- Hreply2.
        destruct (first_call m2) as [tc2|e2]; [|now split].
        destruct (String.eqb (tc_name tc2) "read_data"); [|now split].
        now apply call_read_data_agree.
      * subst. now split.
    + subst. now split.
  }
  { intros q sp w m others tc later arguments sql df
      Hreply Hcalls Hname Hloads Hquery Hread.
    rewrite get_result_v1_run, Hreply. cbv zeta. cbn [py_index nth_error].
    unfold first_call. rewrite Hcalls. cbn [py_index_opt py_index nth_error].
    rewrite Hname. cbn [String.eqb Ascii.eqb Bool.eqb].
    rewrite call_read_data_run. unfold loads. rewrite Hloads, Hquery.
    rewrite read_data_run. cbv zeta. unfold run_query.
    cbn [w_db add_request]. rewrite Hread. reflexivity. }
  { intros q sp w w2 s m m2 others others2 tc tc2 later later2 arguments sql df
      Hreply Hcalls Hname Hschema Hreply2 Hcalls2 Hname2 Hloads Hquery Hread.
    destruct (get_schema_keeps _ _ _ Hschema) as (Hdb & Hllm & Hreq & _).
    rewrite get_result_v2_run, Hreply. cbv zeta. cbn [py_index nth_error].
    unfold first_call. rewrite Hcalls. cbn [py_index_opt py_index nth_error].
    rewrite Hname. cbn [String.eqb Ascii.eqb Bool.eqb].
    rewrite Hschema, Hllm, Hreq. cbn [w_llm w_requests add_request].
    rewrite length_app, Nat.add_1_r, Hreply2. cbn [py_index nth_error].
    rewrite Hcalls2. cbn [py_index_opt py_index nth_error].
    rewrite Hname2. cbn [String.eqb Ascii.eqb Bool.eqb].
    rewrite call_read_data_run. unfold loads. rewrite Hloads, Hquery.
    rewrite read_data_run. cbv zeta. unfold run_query.
    cbn [w_db add_request] in Hdb |- *. rewrite Hdb, Hread. reflexivity. }
Qed.

(** ** The evaluation loop *)

Lemma for_each_app {A S : Type} (body : S -> A -> M S) (xs ys : list A) :
  forall (acc : S) (w : world),
    for_each (xs ++ ys) body acc w =
    match for_each xs body acc w with
    | (Ret acc', w') => for_each ys body acc' w'
    | (Raise e, w') => (Raise e, w')
    end.
Proof.
  induction xs as [|x xs IH]; intros acc w; [reflexivity|].
  cbn [app for_each]. unfold bind.
  destruct (body acc x w) as [[acc'|e] w']; [apply IH|reflexivity].
Qed.

(** One row, step by step: the reference statement runs outside the
    [try]; inside it, the counter goes up as soon as nothing raised. *)
Lemma eval_row_run (get_result : string -> M result) (question : string)
    (n_correct : nat) (row : EvalCase) (w : world) :
  eval_row get_result question n_correct row w =
  match read_data (JStr (Answer row)) w with
  | (Raise e, w1) => (Raise e, w1)
  | (Ret df_true, w1) =>
      match get_result question w1 with
      | (Raise _, w2) => (Ret n_correct, w2)
      | (Ret None, w2) => (Ret n_correct, w2)
      | (Ret (Some (_, df_llm)), w2) =>
          match frames_equal df_true df_llm with
          | Raise _ => (Ret n_correct, w2)
          | Ret _ => (Ret (n_correct + 1), w2)
          end
      end
  end.
Proof.
  unfold eval_row, bind at 1.
  destruct (read_data (JStr (Answer row)) w) as [[df_true|e] w1]; [|reflexivity].
  unfold try_except, bind at 1.
  destruct (get_result question w1) as [[[[sql df_llm]|]|e] w2];
    try reflexivity.
  unfold bind, lift, unpack, ret. cbn [snd].
  destruct (frames_equal df_true df_llm); reflexivity.
Qed.

(** The counter goes up whether the two grids are equal or not. *)
Lemma eval_row_counts_every_quiet_run (get_result : string -> M result)
    (question : string) (n_correct : nat) (row : EvalCase) (w w1 w2 : world)
    (df_true df_llm : DataFrame) (sql : json) (equal : bool) :
  read_data (JStr (Answer row)) w = (Ret df_true, w1) ->
  get_result question w1 = (Ret (Some (sql, df_llm)), w2) ->
  frames_equal df_true df_llm = Ret equal ->
  eval_row get_result question n_correct row w = (Ret (n_correct + 1), w2).
Proof.
  intros Htrue Hllm Heq. rewrite eval_row_run, Htrue, Hllm, Heq. reflexivity.
Qed.

(** The loop never looks at the [Question] column. *)
Lemma evaluation_ignores_the_Question_column (get_result : string -> M result)
    (question : string) (relabel : EvalCase -> string) (eval_df : list EvalCase)
    (w : world) :
  evaluation get_result question
    (map (fun row => {| Question := relabel row; Answer := Answer row |}) eval_df) w
  = evaluation get_result question eval_df w.
Proof.
  unfold evaluation, bind. rewrite length_map.
  assert (Hloop : forall n w,
    for_each (map (fun row => {| Question := relabel row; Answer := Answer row |})
                  eval_df) (eval_row get_result question) n w =
    for_each eval_df (eval_row get_result question) n w).
  { induction eval_df as [|row eval_df IH]; intros n w0; [reflexivity|].
    cbn [map for_each]. unfold bind.
    change (eval_row get_result question n
              {| Question := relabel row; Answer := Answer row |} w0)
      with (eval_row get_result question n row w0).
    destruct (eval_row get_result question n row w0) as [[n'|e] w'];
      [apply IH|reflexivity]. }
  rewrite Hloop. reflexivity.
Qed.

(** C2, as the code has it.  The reference statement of a row is executed
    before the [try] block: when it raises a database error, the error
    leaves the loop.  The rows before it have been processed, the row
    itself is not counted, the rows after it are not processed and no
    count is printed. *)
Theorem failing_reference_sql_aborts_the_batch :
  forall (get_result : string -> M result) (question : string)
         (before after : list EvalCase) (row : EvalCase)
         (w w1 : world) (n : nat),
    for_each before (eval_row get_result question) 0 w = (Ret n, w1) ->
    read_sql_query (w_db w1) (Answer row) = None ->
    evaluation get_result question (before ++ row :: after) w =
      (Raise DatabaseError,
       set_dblog (w_dblog w1 ++ [Connect (length (w_dblog w1));
                                 ReadSqlQuery (length (w_dblog w1))
                                   (JStr (Answer row))]) w1).
Proof.
  intros get_result question before after row w w1 n Hbefore Hbad.
  unfold evaluation, bind. rewrite for_each_app, Hbefore.
  cbn [for_each]. unfold bind. rewrite eval_row_run, read_data_run. cbv zeta.
  unfold run_query. rewrite Hbad. reflexivity.
Qed.

End Properties.

(** ** The comparison of two result sets *)

Section Comparison.

Lemma broadcast_dim_same (n : nat) : broadcast_dim n n = Some n.
Proof. unfold broadcast_dim. now rewrite Nat.eqb_refl. Qed.

Lemma broadcast_index (n i : nat) : i < n -> (if n =? 1 then 0 else i) = i.
Proof. intros Hi. destruct (Nat.eqb_spec n 1); lia. Qed.

(** In a rectangular frame without NaN every cell of the grid exists and
    is equal to itself. *)
Lemma item_self_equal (df : DataFrame) (i j : nat) :
  rectangular df -> self_equal df ->
  i < length (rows df) -> j < length (columns df) ->
  item_eqb (to_numpy df) (to_numpy df) i j = true.
Proof.
  intros Hrect Hself Hi Hj. unfold item_eqb, item, to_numpy. cbn [shape data fst snd].
  rewrite (broadcast_index _ _ Hi), (broadcast_index _ _ Hj).
  assert (Hin : In (nth i (rows df) []) (rows df)) by now apply nth_In.
  unfold rectangular in Hrect. rewrite Forall_forall in Hrect.
  unfold self_equal in Hself. rewrite Forall_forall in Hself.
  specialize (Hrect _ Hin). specialize (Hself _ Hin).
  destruct (nth_error (nth i (rows df) []) j) as [x|] eqn:Hx.
  - rewrite Forall_forall in Hself. apply Hself. eapply nth_error_In, Hx.
  - apply nth_error_None in Hx. lia.
Qed.

(** The comparison reads the cells and the shape of a frame, not its
    labels. *)
Lemma frames_equal_relabel (a a' b : DataFrame) :
  rows a = rows a' -> length (columns a) = length (columns a') ->
  frames_equal a b = frames_equal a' b /\ frames_equal b a = frames_equal b a'.
Proof.
  intros Hrows Hcols.
  assert (Hnp : to_numpy a = to_numpy a')
    by (unfold to_numpy; now rewrite Hrows, Hcols).
  unfold frames_equal. now rewrite Hnp.
Qed.

(** C10, as the code has it.  Two rectangular frames with the same cells
    in the same order and as many columns as each other, whatever their
    column labels, compare equal, provided no cell is a NaN. *)
Theorem frames_equal_ignores_labels :
  forall a b : DataFrame,
    rectangular a ->
    self_equal a ->
    rows a = rows b ->
    length (columns a) = length (columns b) ->
    frames_equal a b = Ret true.
Proof.
  intros a b Hrect Hself Hrows Hcols.
  destruct (frames_equal_relabel b a a (eq_sym Hrows) (eq_sym Hcols)) as [_ ->].
  unfold frames_equal, np_eq.
  rewrite !broadcast_dim_same. f_equal.
  unfold np_all. apply forallb_forall. intros r Hr.
  apply in_map_iff in Hr as (i & <- & Hi). apply in_seq in Hi.
  apply forallb_forall. intros x Hx.
  apply in_map_iff in Hx as (j & <- & Hj). apply in_seq in Hj.
  cbn [to_numpy shape fst snd] in Hi, Hj.
  apply item_self_equal; try assumption; lia.
Qed.

End Comparison.

(** * The code on concrete inputs *)

Section Runs.

Import Sample.

(** ** The single-pass routine *)

(** The model answers in plain text: [tool_calls] is [None]. *)
Lemma get_result_v1_without_tool_call_raises_sample :
  exists e,
    get_result_v1 question prompt_before (fresh shop no_call) =
      (Raise e, add_request (request_v1 question prompt_before) (fresh shop no_call)) /\
    (e = TypeError \/ e = IndexError).
Proof.
  apply (get_result_v1_without_tool_call_raises question prompt_before
           (fresh shop no_call) {| content := None; tool_calls := None |} []).
  - reflexivity.
  - left. reflexivity.
Defined.

(** ** The two-pass routine *)

(** C1 fails on the code: the model asks for [read_data] at once, with a
    statement the database answers, and [get_result_v2] returns no pair. *)
Lemma get_result_v2_first_call_read_data_no_pair :
  ~ (exists (sql : json) (df : DataFrame),
        fst (get_result_v2 question SYSTEM_PROMPT_v2
               (fresh shop (one_step "SELECT 1"))) = Ret (Some (sql, df))).
Proof.
  intros (sql & df & H). vm_compute in H. discriminate H.
Qed.

(** The same run, in full: one request, nothing executed, [None]. *)
Lemma get_result_v2_first_call_read_data_sample :
  get_result_v2 question SYSTEM_PROMPT_v2 (fresh shop (one_step "SELECT 1")) =
    (Ret None,
     add_request (request_v2 (opening question SYSTEM_PROMPT_v2))
       (fresh shop (one_step "SELECT 1"))).
Proof.
  apply (get_result_v2_first_call_read_data question SYSTEM_PROMPT_v2
           (fresh shop (one_step "SELECT 1"))
           {| content := None;
              tool_calls := Some [call "read_data" (query_arguments "SELECT 1")] |}
           [] (call "read_data" (query_arguments "SELECT 1")));
    reflexivity.
Defined.

(** ** Both routines *)

(** The model asks for [get_schema] where [read_data] is expected, or for
    a tool that was not offered: a single run ends in [TypeError]. *)
Lemma unexpected_tool_name_gives_no_result_sample :
  single_run (fun q => get_result_v1 q prompt_before) question
    (fresh shop (always "get_schema")) =
    (Raise TypeError,
     add_request (request_v1 question prompt_before)
       (fresh shop (always "get_schema"))) /\
  single_run (fun q => get_result_v2 q SYSTEM_PROMPT_v2) question
    (fresh shop (always "get_weather")) =
    (Raise TypeError,
     add_request (request_v2 (opening question SYSTEM_PROMPT_v2))
       (fresh shop (always "get_weather"))) /\
  fst (single_run (fun q => get_result_v2 q SYSTEM_PROMPT_v2) question
         (fresh shop (always "get_schema"))) = Raise TypeError.
Proof.
  destruct (@unexpected_tool_name_gives_no_result runtime) as (H1 & H2 & H3).
  split; [|split].
  - apply (H1 question prompt_before (fresh shop (always "get_schema"))
              {| content := None; tool_calls := Some [call "get_schema" "{}"] |}
              [] (call "get_schema" "{}")); reflexivity.
  - apply (H2 question SYSTEM_PROMPT_v2 (fresh shop (always "get_weather"))
              {| content := None; tool_calls := Some [call "get_weather" "{}"] |}
              [] (call "get_weather" "{}")); reflexivity.
  - set (w := fresh shop (always "get_schema")).
    set (m := {| content := None; tool_calls := Some [call "get_schema" "{}"] |}).
    destruct (get_schema (add_request
                (request_v2 (opening question SYSTEM_PROMPT_v2)) w))
      as [[s|e] w2] eqn:Hschema; [|vm_compute in Hschema; discriminate Hschema].
    rewrite (proj2 (H3 question SYSTEM_PROMPT_v2 w w2 s m m [] []
                       (call "get_schema" "{}") (call "get_schema" "{}")
                       eq_refl eq_refl eq_refl Hschema eq_refl eq_refl eq_refl)).
    reflexivity.
Defined.

(** What the model is sent on the database [shop]: the prompt as given
    by the single-pass routine, the schema just read by the two-pass one. *)
Lemma schema_text_sent_to_the_model_sample :
  w_requests (snd (get_result_v1 question prompt_before
                     (fresh shop (one_step "SELECT 1")))) =
    [request_v1 question prompt_before] /\
  map rq_messages
    (w_requests (snd (get_result_v2 question SYSTEM_PROMPT_v2
                        (fresh shop (two_step "SELECT 1"))))) =
    [opening question SYSTEM_PROMPT_v2;
     opening question SYSTEM_PROMPT_v2 ++
       [AssistantMsg {| content := None;
                        tool_calls := Some [call "get_schema" "{}"] |};
        ToolMsg "call_1" "tool" "get_schema"
          "{'Orders': ['OrderID', 'ShipCountry'], 'Regions': ['RegionID', 'RegionDescription']}"]].
Proof.
  destruct (@schema_text_sent_to_the_model runtime) as (_ & H1 & H2).
  split.
  - apply (H1 question prompt_before (fresh shop (one_step "SELECT 1"))).
  - set (w := fresh shop (two_step "SELECT 1")).
    set (m := {| content := None; tool_calls := Some [call "get_schema" "{}"] |}).
    destruct (get_schema (add_request
                (request_v2 (opening question SYSTEM_PROMPT_v2)) w))
      as [[s|e] w2] eqn:Hschema; [|vm_compute in Hschema; discriminate Hschema].
    rewrite (H2 question SYSTEM_PROMPT_v2 w w2 s m [] (call "get_schema" "{}")
               eq_refl eq_refl eq_refl Hschema).
    vm_compute in Hschema. injection Hschema as <- _. reflexivity.
Defined.

(** C5 fails on the code for the single-pass routine: the prompt was
    built before the table [Regions] existed, the call is made after, and
    the text sent to the model is the old one, not the one
    [SYSTEM_PROMPT_v1] gives on the database of the call. *)
Lemma get_result_v1_sends_a_stale_schema :
  fst (SYSTEM_PROMPT_v1 (fresh shop_before no_call)) = Ret prompt_before /\
  map rq_messages
    (w_requests (snd (get_result_v1 question prompt_before
                        (fresh shop (one_step "SELECT 1"))))) =
    [[Msg "system" prompt_before; Msg "user" question]] /\
  fst (SYSTEM_PROMPT_v1 (fresh shop (one_step "SELECT 1"))) <> Ret prompt_before.
Proof.
  split; [reflexivity|]. split; [reflexivity|].
  intros H. vm_compute in H. discriminate H.
Qed.

(** A second request for [SELECT 2] after the first changes neither the
    result nor what is executed: the statement of the first request is
    executed, alone. *)
Lemma only_the_first_tool_call_is_dispatched_sample :
  (fst (get_result_v1 question prompt_before
          (fresh shop (one_step "SELECT 1"))) =
   fst (get_result_v1 question prompt_before
          (fresh shop (one_step_and_more "SELECT 1" "SELECT 2"))) /\
   w_dblog (snd (get_result_v2 question SYSTEM_PROMPT_v2
                   (fresh shop (two_step "SELECT 1")))) =
   w_dblog (snd (get_result_v2 question SYSTEM_PROMPT_v2
                   (fresh shop (fun n => match n with
                                         | 0 => two_step "SELECT 1" 0
                                         | S _ => one_step_and_more "SELECT 1" "SELECT 2" n
                                         end))))) /\
  get_result_v1 question prompt_before
    (fresh shop (one_step_and_more "SELECT 1" "SELECT 2")) =
    (Ret (Some (JStr "SELECT 1", frame1 "1" (SInt 1))),
     set_dblog [Connect 0; ReadSqlQuery 0 (JStr "SELECT 1"); Close 0]
       (add_request (request_v1 question prompt_before)
          (fresh shop (one_step_and_more "SELECT 1" "SELECT 2")))) /\
  (fst (get_result_v2 question SYSTEM_PROMPT_v2
          (fresh shop (Scenarios.two_step_and_more "SELECT 1" "SELECT 2"))) =
     Ret (Some (JStr "SELECT 1", frame1 "1" (SInt 1))) /\
   filter is_read_sql_query
     (w_dblog (snd (get_result_v2 question SYSTEM_PROMPT_v2
                      (fresh shop (Scenarios.two_step_and_more "SELECT 1" "SELECT 2"))))) =
     [ReadSqlQuery 4 (JStr "SELECT 1")]).
Proof.
  destruct (@only_the_first_tool_call_is_dispatched runtime) as (HA & HB & HC).
  split; [split|split].
  - apply (HA question prompt_before
             (fresh shop (one_step "SELECT 1"))
             (fresh shop (one_step_and_more "SELECT 1" "SELECT 2"))).
    repeat split; try reflexivity.
  - apply (HA question SYSTEM_PROMPT_v2
             (fresh shop (two_step "SELECT 1"))
             (fresh shop (fun n => match n with
                                   | 0 => two_step "SELECT 1" 0
                                   | S _ => one_step_and_more "SELECT 1" "SELECT 2" n
                                   end))).
    repeat split; try reflexivity. intros [|n]; reflexivity.
  - apply (HB question prompt_before
             (fresh shop (one_step_and_more "SELECT 1" "SELECT 2"))
             {| content := None;
                tool_calls := Some [call "read_data" (query_arguments "SELECT 1");
                                    call "read_data" (query_arguments "SELECT 2")] |}
             [] (call "read_data" (query_arguments "SELECT 1"))
             [call "read_data" (query_arguments "SELECT 2")]
             (JDict [("query", JStr "SELECT 1")]) "SELECT 1" (frame1 "1" (SInt 1)));
      reflexivity.
  - set (w := fresh shop (Scenarios.two_step_and_more "SELECT 1" "SELECT 2")).
    set (w2 := snd (get_schema
                      (add_request (request_v2 (opening question SYSTEM_PROMPT_v2)) w))).
    rewrite (HC question SYSTEM_PROMPT_v2 w w2 Scenarios.shop_schema
               {| content := None;
                  tool_calls := Some [call "get_schema" "{}";
                                      call "read_data" (query_arguments "SELECT 2")] |}
               {| content := None;
                  tool_calls := Some [call "read_data" (query_arguments "SELECT 1");
                                      call "read_data" (query_arguments "SELECT 2")] |}
               [] [] (call "get_schema" "{}")
               (call "read_data" (query_arguments "SELECT 1"))
               [call "read_data" (query_arguments "SELECT 2")]
               [call "read_data" (query_arguments "SELECT 2")]
               (JDict [("query", JStr "SELECT 1")]) "SELECT 1" (frame1 "1" (SInt 1))
               eq_refl eq_refl eq_refl eq_refl eq_refl eq_refl eq_refl eq_refl
               eq_refl eq_refl).
    split; reflexivity.
Defined.

(** ** The evaluation loop *)

(** C2 fails on the code: the reference statement of the first row is not
    SQL; the loop ends with the database error, the second row is not
    processed (no request is sent to the model) and nothing is printed. *)
Lemma broken_reference_sql_ends_the_evaluation :
  evaluation_v1 prompt_before question [broken_case; one_case]
    (fresh shop (one_step "SELECT 1")) =
  (Raise DatabaseError,
   set_dblog [Connect 0; ReadSqlQuery 0 (JStr "SELEC 2")]
     (fresh shop (one_step "SELECT 1"))) /\
  fst (evaluation_v2 question [broken_case; one_case]
         (fresh shop (two_step "SELECT 1"))) = Raise DatabaseError /\
  w_stdout (snd (evaluation_v2 question [broken_case; one_case]
                   (fresh shop (two_step "SELECT 1")))) = [].
Proof. repeat split; reflexivity. Qed.

(** A good row, the broken one, and a row that is never reached. *)
Lemma failing_reference_sql_aborts_the_batch_sample :
  fst (evaluation_v1 prompt_before question [one_case; broken_case; brazil_case]
         (fresh shop (one_step "SELECT 1"))) = Raise DatabaseError /\
  w_stdout (snd (evaluation_v1 prompt_before question
                   [one_case; broken_case; brazil_case]
                   (fresh shop (one_step "SELECT 1")))) = [].
Proof.
  set (w := fresh shop (one_step "SELECT 1")).
  set (get_result := fun q => get_result_v1 q prompt_before).
  destruct (for_each [one_case] (eval_row get_result question) 0 w)
    as [[n|e] w1] eqn:Hbefore; [|vm_compute in Hbefore; discriminate Hbefore].
  assert (Hdb : w_db w1 = shop)
    by (vm_compute in Hbefore; injection Hbefore as _ <-; reflexivity).
  assert (Hout : w_stdout w1 = [])
    by (vm_compute in Hbefore; injection Hbefore as _ <-; reflexivity).
  assert (Hbad : read_sql_query (w_db w1) (Answer broken_case) = None)
    by (rewrite Hdb; reflexivity).
  pose proof (failing_reference_sql_aborts_the_batch get_result question
                [one_case] [brazil_case] broken_case w w1 n Hbefore Hbad) as Hrun.
  cbn [app] in Hrun. unfold evaluation_v1. fold get_result. rewrite Hrun.
  split; [reflexivity|exact Hout].
Defined.

(** C3 fails on the code: the reference statement gives the grid [[1]],
    the statement of the model gives [[2]], the two grids are not equal,
    and the case is counted as correct. *)
Lemma unequal_grids_are_counted_as_correct :
  frames_equal (frame1 "1" (SInt 1)) (frame1 "2" (SInt 2)) = Ret false /\
  w_stdout (snd (evaluation_v1 prompt_before question [one_case]
                   (fresh shop (one_step "SELECT 2")))) =
    ["Number of correct responses: 1/1"] /\
  w_stdout (snd (evaluation_v2 question [one_case]
                   (fresh shop (two_step "SELECT 2")))) =
    ["Number of correct responses: 1/1"].
Proof. repeat split; reflexivity. Qed.

(** C4 fails on the code: two rows with two different questions, and both
    requests carry the text of the global variable [question]. *)
Lemma every_row_is_asked_the_global_question :
  Question brazil_case <> Question one_case /\
  map rq_messages
    (w_requests (snd (evaluation_v1 prompt_before question [brazil_case; one_case]
                        (fresh shop (one_step "SELECT 1"))))) =
    [[Msg "system" prompt_before; Msg "user" question];
     [Msg "system" prompt_before; Msg "user" question]] /\
  map (fun rq => nth_error (rq_messages rq) 1)
    (w_requests (snd (evaluation_v2 question [brazil_case; one_case]
                        (fresh shop (always "get_weather"))))) =
    [Some (Msg "user" question); Some (Msg "user" question)].
Proof.
  split; [intros H; discriminate H|]. split; reflexivity.
Qed.

(** ** The comparison *)

(** C10 fails on the code when a cell is a NaN: the same grid under two
    labels does not compare equal. *)
Lemma nan_grids_do_not_compare_equal :
  rows (frame1 "ReportsTo" nan) = rows (frame1 "Manager" nan) /\
  frames_equal (frame1 "ReportsTo" nan) (frame1 "Manager" nan) = Ret false.
Proof. split; reflexivity. Qed.

(** The count of the orders shipped to Brazil under two labels. *)
Lemma frames_equal_ignores_labels_sample :
  frames_equal (frame1 "COUNT(*)" (SInt 3)) (frame1 "n" (SInt 3)) = Ret true.
Proof.
  apply (frames_equal_ignores_labels (frame1 "COUNT(*)" (SInt 3)) (frame1 "n" (SInt 3))).
  - repeat constructor.
  - repeat constructor.
  - reflexivity.
  - reflexivity.
Defined.

End Runs.

(** * Further properties of the code *)

(** ** The comparison [(a.to_numpy() == b.to_numpy()).all()] *)

Section GridComparison.

Lemma cell_in_range (df : DataFrame) (i j : nat) :
  rectangular df -> i < length (rows df) -> j < length (columns df) ->
  exists x, cell df i j = Some x /\ item (to_numpy df) i j = Some x.
Proof.
  intros Hrect Hi Hj. unfold cell, item, to_numpy. cbn [shape data fst snd].
  rewrite (broadcast_index _ _ Hi), (broadcast_index _ _ Hj).
  rewrite (nth_error_nth' (rows df) [] Hi).
  assert (Hin : In (nth i (rows df) []) (rows df)) by now apply nth_In.
  unfold rectangular in Hrect. rewrite Forall_forall in Hrect.
  specialize (Hrect _ Hin).
  destruct (nth_error (nth i (rows df) []) j) as [x|] eqn:Hx.
  - now exists x.
  - apply nth_error_None in Hx. lia.
Qed.

Lemma cell_some_in_range (df : DataFrame) (i j : nat) (x : scalar) :
  rectangular df -> cell df i j = Some x ->
  i < length (rows df) /\ j < length (columns df).
Proof.
  intros Hrect Hcell. unfold cell in Hcell.
  destruct (nth_error (rows df) i) as [r|] eqn:Hr; [|discriminate].
  assert (Hi : i < length (rows df)) by (apply nth_error_Some; congruence).
  split; [exact Hi|].
  unfold rectangular in Hrect. rewrite Forall_forall in Hrect.
  rewrite <- (Hrect r (nth_error_In _ _ Hr)).
  apply nth_error_Some. congruence.
Qed.

Lemma broadcast_dim_none (n m : nat) :
  broadcast_dim n m = None <-> ~ broadcastable n m.
Proof.
  unfold broadcast_dim, broadcastable.
  destruct (Nat.eqb_spec n m), (Nat.eqb_spec n 1), (Nat.eqb_spec m 1);
    split; intros H; try discriminate; try reflexivity;
    try (exfalso; apply H; auto; fail);
    intros [?|[?|?]]; contradiction.
Qed.

(** The comparison raises exactly when the two shapes do not broadcast. *)
Lemma frames_equal_raises (a b : DataFrame) :
  (broadcastable (length (rows a)) (length (rows b)) /\
   broadcastable (length (columns a)) (length (columns b)) ->
   exists r, frames_equal a b = Ret r) /\
  (~ (broadcastable (length (rows a)) (length (rows b)) /\
      broadcastable (length (columns a)) (length (columns b))) ->
   frames_equal a b = Raise ValueError).
Proof.
  unfold frames_equal, np_eq, to_numpy. cbn [shape fst snd].
  destruct (broadcast_dim (length (rows a)) (length (rows b))) as [r|] eqn:Hr,
           (broadcast_dim (length (columns a)) (length (columns b))) as [c|] eqn:Hc.
  - split; [intros _; eexists; reflexivity|].
    intros H. exfalso. apply H. split.
    + destruct (broadcast_dim_none (length (rows a)) (length (rows b))) as [_ H1].
      rewrite Hr in H1.
      destruct (Nat.eq_dec (length (rows a)) (length (rows b))) as [E|E];
        [now left|].
      destruct (Nat.eq_dec (length (rows a)) 1) as [E1|E1]; [right; now left|].
      destruct (Nat.eq_dec (length (rows b)) 1) as [E2|E2]; [right; now right|].
      assert (Hnone : Some r = None)
        by (apply H1; intros [?|[?|?]]; contradiction).
      discriminate Hnone.
    + destruct (broadcast_dim_none (length (columns a)) (length (columns b)))
        as [_ H1].
      rewrite Hc in H1.
      destruct (Nat.eq_dec (length (columns a)) (length (columns b))) as [E|E];
        [now left|].
      destruct (Nat.eq_dec (length (columns a)) 1) as [E1|E1]; [right; now left|].
      destruct (Nat.eq_dec (length (columns b)) 1) as [E2|E2]; [right; now right|].
      assert (Hnone : Some c = None)
        by (apply H1; intros [?|[?|?]]; contradiction).
      discriminate Hnone.
  - split; [|reflexivity]. intros [_ H].
    apply broadcast_dim_none in Hc. contradiction.
  - split; [|reflexivity]. intros [H _].
    apply broadcast_dim_none in Hr. contradiction.
  - split; [|reflexivity]. intros [H _].
    apply broadcast_dim_none in Hr. contradiction.
Qed.

(** X1. On two rectangular frames without float cells, with as many
    rows and as many columns as each other, the comparison never raises,
    and it answers [True] exactly when the two cells of every position
    are equal under [==]; one pair of different cells makes it [False]. *)
Theorem frames_equal_same_shape :
  forall a b : DataFrame,
    rectangular a -> rectangular b ->
    float_free a -> float_free b ->
    length (rows a) = length (rows b) ->
    length (columns a) = length (columns b) ->
    exists r,
      frames_equal a b = Ret r /\
      (r = true <->
       forall i j x y,
         cell a i j = Some x -> cell b i j = Some y -> scalar_eqb x y = true).
Proof.
  intros a b Ha Hb _ _ Hrows Hcols.
  unfold frames_equal, np_eq. cbn [to_numpy shape fst snd].
  rewrite <- Hrows, <- Hcols, !broadcast_dim_same.
  eexists. split; [reflexivity|].
  unfold np_all. rewrite forallb_forall. split.
  - intros Hall i j x y Hx Hy.
    destruct (cell_some_in_range a i j x Ha Hx) as [Hi Hj].
    assert (Hrow : forallb (fun v : bool => v)
              (map (fun j => item_eqb (to_numpy a) (to_numpy b) i j)
                   (seq 0 (length (columns a)))) = true).
    { apply Hall. apply in_map_iff. exists i. split; [reflexivity|].
      apply in_seq. lia. }
    rewrite forallb_forall in Hrow.
    assert (Hcell : item_eqb (to_numpy a) (to_numpy b) i j = true).
    { apply Hrow. apply in_map_iff. exists j. split; [reflexivity|].
      apply in_seq. lia. }
    unfold item_eqb in Hcell.
    destruct (cell_in_range a i j Ha Hi Hj) as (x' & Hx' & Hitema).
    rewrite Hrows in Hi. rewrite Hcols in Hj.
    destruct (cell_in_range b i j Hb Hi Hj) as (y' & Hy' & Hitemb).
    rewrite Hitema, Hitemb in Hcell. congruence.
  - intros Hcells r Hr.
    apply in_map_iff in Hr as (i & <- & Hi). apply in_seq in Hi.
    apply forallb_forall. intros v Hv.
    apply in_map_iff in Hv as (j & <- & Hj). apply in_seq in Hj.
    assert (Hi' : i < length (rows a)) by lia.
    assert (Hj' : j < length (columns a)) by lia.
    unfold item_eqb.
    destruct (cell_in_range a i j Ha Hi' Hj') as (x & Hx & ->).
    rewrite Hrows in Hi'. rewrite Hcols in Hj'.
    destruct (cell_in_range b i j Hb Hi' Hj') as (y & Hy & ->).
    now apply (Hcells i j).
Qed.

(** X2. Broadcasting makes frames of different shapes compare equal: a
    frame of one row and one column answers [True] against every
    rectangular frame whose cells are all equal to its cell, whatever the
    number of rows and columns of that frame, none included. *)
Theorem frames_equal_broadcasts_one_cell :
  forall (label : string) (v : scalar) (df : DataFrame),
    rectangular df ->
    Forall (Forall (fun y => scalar_eqb v y = true)) (rows df) ->
    frames_equal {| columns := [label]; rows := [[v]] |} df = Ret true.
Proof.
  intros label v df Hrect Hall.
  unfold frames_equal, np_eq. cbn [to_numpy shape fst snd columns rows length].
  assert (Hdim : forall n, broadcast_dim 1 n = Some n).
  { intros n. unfold broadcast_dim. destruct (Nat.eqb_spec 1 n); [now subst|].
    reflexivity. }
  rewrite !Hdim. f_equal.
  unfold np_all. apply forallb_forall. intros r Hr.
  apply in_map_iff in Hr as (i & <- & Hi). apply in_seq in Hi.
  apply forallb_forall. intros x Hx.
  apply in_map_iff in Hx as (j & <- & Hj). apply in_seq in Hj.
  unfold item_eqb.
  destruct (cell_in_range df i j Hrect) as (y & Hy & ->); try lia.
  unfold item at 1. cbn.
  unfold cell in Hy.
  destruct (nth_error (rows df) i) as [row|] eqn:Hrow; [|discriminate].
  rewrite Forall_forall in Hall.
  pose proof (Hall row (nth_error_In _ _ Hrow)) as Hrowall.
  rewrite Forall_forall in Hrowall. apply Hrowall.
  eapply nth_error_In, Hy.
Qed.

End GridComparison.

(** ** [get_schema] *)

Section SchemaReading.

Context {rt : Runtime}.
Local Open Scope py_scope.
#[local] Arguments String.append : simpl never.

Lemma schema_loop_step (c : nat) (table : list scalar) (tables : list (list scalar))
    (acc : Schema) (w : world) :
  for_each (table :: tables) (add_table c) acc w =
  match add_table c acc table w with
  | (Ret acc', w') => for_each tables (add_table c) acc' w'
  | (Raise e, w') => (Raise e, w')
  end.
Proof. reflexivity. Qed.

(** A loop that ends well has read one entry per row of the catalogue,
    with one statement each, and stored them with [schema[name] = ...]. *)
Lemma schema_loop_success (c : nat) (tables : list (list scalar)) :
  forall (acc s : Schema) (w w' : world),
    for_each tables (add_table c) acc w = (Ret s, w') ->
    exists entries,
      Forall2 (entry_of (w_db w)) tables entries /\
      s = fold_left (fun d e => dict_set d (fst e) (snd e)) entries acc /\
      w' = set_dblog (w_dblog w ++
             map (fun e => CursorExecute c (table_info_statement (fst e))) entries) w.
Proof.
  induction tables as [|table tables IH]; intros acc s w w' Hrun.
  - cbn in Hrun. unfold ret in Hrun. injection Hrun as <- <-.
    exists []. split; [constructor|]. split; [reflexivity|].
    cbn. now rewrite app_nil_r, set_dblog_same.
  - rewrite schema_loop_step, add_table_run in Hrun. cbv zeta in Hrun.
    destruct (py_index table 0) as [table_name|e] eqn:Hname; [|discriminate].
    fold (table_info_statement table_name) in Hrun.
    destruct (cursor_execute (w_db w) (table_info_statement table_name))
      as [columns|] eqn:Hexec; [|discriminate].
    destruct (comprehension (fun column => py_index column 1) columns)
      as [names|e] eqn:Hcomp; [|discriminate].
    apply IH in Hrun as (entries & Hall & Hs & Hw).
    exists ((table_name, names) :: entries). split; [|split].
    + constructor; [|exact Hall]. exists columns. now repeat split.
    + exact Hs.
    + rewrite Hw. rewrite set_dblog_twice. cbn [w_dblog set_dblog map fst].
      now rewrite <- app_assoc.
Qed.

(** Conversely, when the database answers for every row, the loop ends
    well. *)
Lemma schema_loop_complete (c : nat) (tables : list (list scalar))
    (entries : list (scalar * list scalar)) :
  forall (acc : Schema) (w : world),
    Forall2 (entry_of (w_db w)) tables entries ->
    for_each tables (add_table c) acc w =
      (Ret (fold_left (fun d e => dict_set d (fst e) (snd e)) entries acc),
       set_dblog (w_dblog w ++
         map (fun e => CursorExecute c (table_info_statement (fst e))) entries) w).
Proof.
  intros acc w Hall. revert acc.
  remember (w_db w) as db eqn:Hdb. revert w Hdb.
  induction Hall as [|table entry tables entries Hentry Hall IH];
    intros w Hdb acc.
  - cbn. unfold ret. now rewrite app_nil_r, set_dblog_same.
  - destruct Hentry as (columns & Hname & Hexec & Hcomp).
    rewrite schema_loop_step, add_table_run, Hname. cbv zeta.
    fold (table_info_statement (fst entry)). rewrite <- Hdb, Hexec, Hcomp.
    rewrite (IH (set_dblog (w_dblog w ++
                   [CursorExecute c (table_info_statement (fst entry))]) w) Hdb).
    rewrite set_dblog_twice. cbn [w_dblog set_dblog map fold_left].
    now rewrite <- app_assoc.
Qed.

(** [schema[k] = v] on a dictionary. *)
Lemma dict_set_fresh (d : Schema) (k : scalar) (v : list scalar) :
  Forall (fun e => scalar_eqb (fst e) k = false) d ->
  dict_set d k v = d ++ [(k, v)].
Proof.
  induction d as [|[k' v'] d IH]; intros Hd; [reflexivity|].
  inversion Hd as [|? ? Hk Hd']; subst. cbn in Hk |- *.
  rewrite Hk. now rewrite IH.
Qed.

Lemma dict_set_keys (d : Schema) (k k0 : scalar) (v : list scalar) :
  Forall (fun e => scalar_eqb k0 (fst e) = false) d ->
  scalar_eqb k0 k = false ->
  Forall (fun e => scalar_eqb k0 (fst e) = false) (dict_set d k v).
Proof.
  induction d as [|[k' v'] d IH]; intros Hd Hk.
  - repeat constructor. exact Hk.
  - inversion Hd as [|? ? Hk' Hd']; subst. cbn.
    destruct (scalar_eqb k' k); constructor; auto.
Qed.

Lemma dict_set_distinct (d : Schema) (k : scalar) (v : list scalar) :
  distinct_keys d -> distinct_keys (dict_set d k v).
Proof.
  unfold distinct_keys.
  induction d as [|[k' v'] d IH]; intros Hd.
  - repeat constructor.
  - inversion Hd as [|? ? Hfirst Hrest]; subst. cbn.
    destruct (scalar_eqb k' k) eqn:Hk.
    + constructor; assumption.
    + constructor; [|now apply IH].
      now apply dict_set_keys.
Qed.

Lemma dict_set_length (d : Schema) (k : scalar) (v : list scalar) :
  length (dict_set d k v) <= S (length d).
Proof.
  induction d as [|[k' v'] d IH]; [cbn; lia|].
  cbn. destruct (scalar_eqb k' k); cbn; lia.
Qed.

Lemma fold_dict_set_distinct (entries : list (scalar * list scalar)) :
  forall acc : Schema,
    distinct_keys acc ->
    distinct_keys (fold_left (fun d e => dict_set d (fst e) (snd e)) entries acc).
Proof.
  induction entries as [|e entries IH]; intros acc Hacc; [exact Hacc|].
  cbn. apply IH. now apply dict_set_distinct.
Qed.

Lemma fold_dict_set_length (entries : list (scalar * list scalar)) :
  forall acc : Schema,
    length (fold_left (fun d e => dict_set d (fst e) (snd e)) entries acc)
    <= length acc + length entries.
Proof.
  induction entries as [|e entries IH]; intros acc; [cbn; lia|].
  cbn. specialize (IH (dict_set acc (fst e) (snd e))).
  pose proof (dict_set_length acc (fst e) (snd e)). lia.
Qed.

Lemma fold_dict_set_fresh (entries : list (scalar * list scalar)) :
  forall acc : Schema,
    distinct_keys entries ->
    (forall a e, In a acc -> In e entries -> scalar_eqb (fst a) (fst e) = false) ->
    fold_left (fun d e => dict_set d (fst e) (snd e)) entries acc = acc ++ entries.
Proof.
  induction entries as [|e entries IH]; intros acc Hdist Hacc.
  - cbn. now rewrite app_nil_r.
  - inversion Hdist as [|? ? Hfirst Hrest]; subst. cbn [fold_left].
    rewrite dict_set_fresh.
    + rewrite <- surjective_pairing, IH; [now rewrite <- app_assoc|exact Hrest|].
      intros a e' Ha He'. apply in_app_or in Ha as [Ha|[<-|[]]].
      * apply Hacc; [exact Ha|now right].
      * rewrite Forall_forall in Hfirst. now apply Hfirst.
    + apply Forall_forall. intros a Ha. apply Hacc; [exact Ha|now left].
Qed.

(** X4. When the catalogue lists tables of pairwise different names and
    the database describes each of them, [get_schema] returns one entry
    per table, in the order of the catalogue, each with the column names
    in the order of [PRAGMA table_info]; it has executed the catalogue
    statement and one statement per table on a single connection. *)
Theorem get_schema_lists_every_table :
  forall (w : world) (tables : list (list scalar))
         (entries : list (scalar * list scalar)),
    cursor_execute (w_db w) catalogue_statement = Some tables ->
    Forall2 (entry_of (w_db w)) tables entries ->
    distinct_keys entries ->
    get_schema w =
      (Ret entries,
       set_dblog
         (w_dblog w ++
          Connect (length (w_dblog w)) ::
          CursorExecute (length (w_dblog w)) catalogue_statement ::
          map (fun e => CursorExecute (length (w_dblog w))
                          (table_info_statement (fst e))) entries) w).
Proof.
  intros w tables entries Hcat Hall Hdist.
  rewrite get_schema_run. cbv zeta. fold catalogue_statement. rewrite Hcat.
  rewrite schema_loop_complete with (entries := entries); [|exact Hall].
  rewrite fold_dict_set_fresh; [|exact Hdist|intros a e []].
  rewrite set_dblog_twice. cbn [app w_dblog set_dblog].
  now rewrite <- app_assoc.
Qed.

(** X5. A call of [get_schema] that returns has executed exactly one
    statement for the catalogue and one per row of it, and the schema it
    returns has at most one entry per row. *)
Theorem get_schema_statement_count :
  forall (w w' : world) (s : Schema),
    get_schema w = (Ret s, w') ->
    exists tables,
      cursor_execute (w_db w) catalogue_statement = Some tables /\
      length (w_dblog w') = length (w_dblog w) + 2 + length tables /\
      length (filter is_cursor_execute (w_dblog w')) =
        length (filter is_cursor_execute (w_dblog w)) + 1 + length tables /\
      length s <= length tables.
Proof.
  intros w w' s Hrun. rewrite get_schema_run in Hrun. cbv zeta in Hrun.
  fold catalogue_statement in Hrun.
  destruct (cursor_execute (w_db w) catalogue_statement) as [tables|];
    [|discriminate].
  exists tables. split; [reflexivity|].
  apply schema_loop_success in Hrun as (entries & Hall & -> & ->).
  apply Forall2_length in Hall.
  cbn [w_dblog set_dblog]. rewrite !filter_app, !length_app, length_map.
  cbn [filter is_cursor_execute length].
  assert (Hexec : forall c (es : list (scalar * list scalar)),
            filter is_cursor_execute
              (map (fun e => CursorExecute c (table_info_statement (fst e))) es) =
            map (fun e => CursorExecute c (table_info_statement (fst e))) es).
  { intros c es. induction es as [|e es IH]; [reflexivity|].
    cbn. now rewrite IH. }
  rewrite Hexec, length_map.
  pose proof (fold_dict_set_length entries []) as Hlen. cbn [length] in Hlen.
  repeat split; lia.
Qed.

(** X6. The schema [get_schema] returns never has two entries of equal
    key: a name the catalogue lists twice is stored once. *)
Theorem get_schema_keys_are_distinct :
  forall (w w' : world) (s : Schema),
    get_schema w = (Ret s, w') -> distinct_keys s.
Proof.
  intros w w' s Hrun. rewrite get_schema_run in Hrun. cbv zeta in Hrun.
  destruct (cursor_execute (w_db w) _) as [tables|]; [|discriminate].
  apply schema_loop_success in Hrun as (entries & _ & -> & _).
  apply fold_dict_set_distinct. constructor.
Qed.

End SchemaReading.

(** ** The two routines *)

Section Orchestration.

Context {rt : Runtime}.
Local Open Scope py_scope.
#[local] Arguments String.append : simpl never.

(** The world after a statement ran well on a fresh connection. *)
Lemma call_read_data_success (tc : tool_call) (w : world)
    (arguments : json) (sql : string) (df : DataFrame) :
  json_loads (tc_arguments tc) = Some arguments ->
  json_getitem arguments "query" = Ret (JStr sql) ->
  read_sql_query (w_db w) sql = Some df ->
  call_read_data tc w =
    (Ret (Some (JStr sql, df)),
     set_dblog (w_dblog w ++ [Connect (length (w_dblog w));
                              ReadSqlQuery (length (w_dblog w)) (JStr sql);
                              Close (length (w_dblog w))]) w).
Proof.
  intros Hloads Hquery Hread.
  rewrite call_read_data_run. unfold loads. rewrite Hloads, Hquery.
  rewrite read_data_run. cbv zeta. unfold run_query. rewrite Hread.
  reflexivity.
Qed.

(** A pair that comes back was read from the database. *)
Lemma call_read_data_sound (tc : tool_call) (w : world)
    (sql : json) (df : DataFrame) :
  fst (call_read_data tc w) = Ret (Some (sql, df)) ->
  exists text, sql = JStr text /\ read_sql_query (w_db w) text = Some df.
Proof.
  rewrite call_read_data_run.
  destruct (loads (tc_arguments tc)) as [arguments|e]; [|discriminate].
  destruct (json_getitem arguments "query") as [sql_query|e]; [|discriminate].
  rewrite read_data_run. cbv zeta.
  destruct (run_query (w_db w) sql_query) as [df'|e] eqn:Hq; [|discriminate].
  cbn. intros H. injection H as <- <-.
  unfold run_query in Hq. destruct sql_query; try discriminate.
  destruct (read_sql_query (w_db w) s) eqn:Hr; [|discriminate].
  injection Hq as <-. now exists s.
Qed.

(** What a requested call of [read_data] does to the database log. *)
Lemma call_read_data_log (tc : tool_call) (w : world) :
  w_db (snd (call_read_data tc w)) = w_db w /\
  w_llm (snd (call_read_data tc w)) = w_llm w /\
  exists l, w_dblog (snd (call_read_data tc w)) = w_dblog w ++ l /\
            length (filter is_read_sql_query l) <= 1.
Proof.
  rewrite call_read_data_run.
  destruct (loads (tc_arguments tc)) as [arguments|e].
  2:{ cbn [snd]. split; [reflexivity|]. split; [reflexivity|].
      exists []. rewrite app_nil_r. split; [reflexivity|cbn; lia]. }
  destruct (json_getitem arguments "query") as [sql_query|e].
  2:{ cbn [snd]. split; [reflexivity|]. split; [reflexivity|].
      exists []. rewrite app_nil_r. split; [reflexivity|cbn; lia]. }
  rewrite read_data_run. cbv zeta.
  destruct (run_query (w_db w) sql_query); cbn [snd w_db w_llm w_dblog set_dblog];
    (split; [reflexivity|]); (split; [reflexivity|]);
    eexists; (split; [reflexivity|cbn; lia]).
Qed.

Lemma cursor_executes_are_not_reads (l : list db_event) :
  forallb is_cursor_execute l = true -> filter is_read_sql_query l = [].
Proof.
  induction l as [|e l IH]; intros Hl; [reflexivity|].
  cbn in Hl. apply andb_prop in Hl as [He Hl].
  destruct e; try discriminate. cbn. now apply IH.
Qed.

(** X7. The single-pass routine at work.  When the first
    tool-invocation request names [read_data], its argument text parses
    to an object whose field [query] is a statement the database answers,
    [get_result_v1] returns that statement together with the frame the
    database gives for it, after one request to the model and with the
    connection of the query closed again. *)
Theorem get_result_v1_returns_the_model_query :
  forall (q sp : string) (w : world)
         (m : ChatCompletionMessage) (others : list ChatCompletionMessage)
         (tc : tool_call) (arguments : json) (sql : string) (df : DataFrame),
    w_llm w (length (w_requests w)) = Ret (m :: others) ->
    first_call m = Ret tc ->
    tc_name tc = "read_data" ->
    json_loads (tc_arguments tc) = Some arguments ->
    json_getitem arguments "query" = Ret (JStr sql) ->
    read_sql_query (w_db w) sql = Some df ->
    get_result_v1 q sp w =
      (Ret (Some (JStr sql, df)),
       set_dblog (w_dblog w ++ [Connect (length (w_dblog w));
                                ReadSqlQuery (length (w_dblog w)) (JStr sql);
                                Close (length (w_dblog w))])
         (add_request (request_v1 q sp) w)).
Proof.
  intros q sp w m others tc arguments sql df
    Hreply Hfirst Hname Hloads Hquery Hread.
  rewrite get_result_v1_run, Hreply. cbv zeta. cbn [py_index nth_error].
  rewrite Hfirst, Hname. cbn [String.eqb Ascii.eqb Bool.eqb].
  now rewrite (call_read_data_success tc _ arguments sql df).
Qed.

(** X8. The two-pass routine at work.  When the first response asks for
    [get_schema], the schema can be read, and the second response asks
    for [read_data] with a statement the database answers,
    [get_result_v2] returns that statement and its frame after exactly
    two requests; the second request carries the schema just read. *)
Theorem get_result_v2_returns_the_model_query :
  forall (q sp : string) (w w2 : world) (s : Schema)
         (m m2 : ChatCompletionMessage) (others others2 : list ChatCompletionMessage)
         (tc tc2 : tool_call) (arguments : json) (sql : string) (df : DataFrame),
    w_llm w (length (w_requests w)) = Ret (m :: others) ->
    first_call m = Ret tc ->
    tc_name tc = "get_schema" ->
    get_schema (add_request (request_v2 (opening q sp)) w) = (Ret s, w2) ->
    w_llm w (S (length (w_requests w))) = Ret (m2 :: others2) ->
    first_call m2 = Ret tc2 ->
    tc_name tc2 = "read_data" ->
    json_loads (tc_arguments tc2) = Some arguments ->
    json_getitem arguments "query" = Ret (JStr sql) ->
    read_sql_query (w_db w) sql = Some df ->
    get_result_v2 q sp w =
      (Ret (Some (JStr sql, df)),
       set_dblog (w_dblog w2 ++ [Connect (length (w_dblog w2));
                                 ReadSqlQuery (length (w_dblog w2)) (JStr sql);
                                 Close (length (w_dblog w2))])
         (add_request (request_v2 (with_schema q sp m tc s)) w2)) /\
    w_requests w2 = w_requests w ++ [request_v2 (opening q sp)].
Proof.
  intros q sp w w2 s m m2 others others2 tc tc2 arguments sql df
    Hreply Hfirst Hname Hschema Hreply2 Hfirst2 Hname2 Hloads Hquery Hread.
  destruct (get_schema_keeps _ _ _ Hschema) as (Hdb & Hllm & Hreq & _).
  split; [|exact Hreq].
  rewrite get_result_v2_run, Hreply. cbv zeta. cbn [py_index nth_error].
  rewrite Hfirst, Hname. cbn [String.eqb Ascii.eqb Bool.eqb].
  rewrite Hschema, Hllm, Hreq. cbn [w_llm w_requests add_request].
  rewrite length_app, Nat.add_1_r, Hreply2. cbn [py_index nth_error].
  rewrite Hfirst2, Hname2. cbn [String.eqb Ascii.eqb Bool.eqb].
  rewrite (call_read_data_success tc2 _ arguments sql df); try assumption.
  - reflexivity.
  - cbn [w_db add_request]. rewrite Hdb. exact Hread.
Qed.

(** X9. Whatever the model answers, a pair returned by either routine is
    a statement in text form together with the frame the database gives
    for that very statement: neither routine returns a result it did not
    read from the database. *)
Theorem returned_pairs_come_from_the_database :
  forall (q sp : string) (w : world) (sql : json) (df : DataFrame),
    fst (get_result_v1 q sp w) = Ret (Some (sql, df)) \/
    fst (get_result_v2 q sp w) = Ret (Some (sql, df)) ->
    exists text, sql = JStr text /\ read_sql_query (w_db w) text = Some df.
Proof.
  intros q sp w sql df [Hrun|Hrun].
  - rewrite get_result_v1_run in Hrun. cbv zeta in Hrun.
    destruct (w_llm w (length (w_requests w))) as [response|e]; [|discriminate].
    destruct (py_index response 0) as [m|e]; [|discriminate].
    destruct (first_call m) as [tc|e]; [|discriminate].
    destruct (String.eqb (tc_name tc) "read_data"); [|discriminate].
    now apply call_read_data_sound in Hrun.
  - rewrite get_result_v2_run in Hrun. cbv zeta in Hrun.
    destruct (w_llm w (length (w_requests w))) as [response|e]; [|discriminate].
    destruct (py_index response 0) as [m|e]; [|discriminate].
    destruct (first_call m) as [tc|e]; [|discriminate].
    destruct (String.eqb (tc_name tc) "get_schema"); [|discriminate].
    destruct (get_schema _) as [[s|e] w2] eqn:Hschema; [|discriminate].
    destruct (get_schema_keeps _ _ _ Hschema) as (Hdb & _).
    destruct (w_llm w2 (length (w_requests w2))) as [second|e]; [|discriminate].
    destruct (py_index second 0) as [m2|e]; [|discriminate].
    destruct (first_call m2) as [tc2|e]; [|discriminate].
    destruct (String.eqb (tc_name tc2) "read_data"); [|discriminate].
    apply call_read_data_sound in Hrun. cbn [w_db add_request] in Hrun.
    now rewrite Hdb in Hrun.
Qed.


(** X11. A statement on which [read_sql_query] raises.  When the
    statement of the model makes [read_sql_query] raise on the connection
    opened for it, [get_result_v1] raises as well: the exception is not
    caught, no result is returned, the statement is not tried again, no
    second request goes to the model, and [conn.close()] is not called. *)
Theorem get_result_v1_refused_statement :
  forall (q sp : string) (w : world)
         (m : ChatCompletionMessage) (others : list ChatCompletionMessage)
         (tc : tool_call) (arguments : json) (sql : string),
    w_llm w (length (w_requests w)) = Ret (m :: others) ->
    first_call m = Ret tc ->
    tc_name tc = "read_data" ->
    json_loads (tc_arguments tc) = Some arguments ->
    json_getitem arguments "query" = Ret (JStr sql) ->
    read_sql_query (w_db w) sql = None ->
    exists e,
      get_result_v1 q sp w =
        (Raise e,
         set_dblog (w_dblog w ++ [Connect (length (w_dblog w));
                                  ReadSqlQuery (length (w_dblog w)) (JStr sql)])
           (add_request (request_v1 q sp) w)).
Proof.
  intros q sp w m others tc arguments sql
    Hreply Hfirst Hname Hloads Hquery Hread.
  rewrite get_result_v1_run, Hreply. cbv zeta. cbn [py_index nth_error].
  rewrite Hfirst, Hname. cbn [String.eqb Ascii.eqb Bool.eqb].
  rewrite call_read_data_run. unfold loads. rewrite Hloads, Hquery.
  rewrite read_data_run. cbv zeta. unfold run_query.
  cbn [w_db add_request]. rewrite Hread.
  eexists. reflexivity.
Qed.

(** X12. An error of the endpoint is neither retried nor swallowed: when
    the client library raises on the first request, both routines raise
    the same error with nothing done on the database; when it raises on
    the second request of [get_result_v2], that error is raised after
    the schema has been read, and no third request is made. *)
Theorem endpoint_errors_propagate :
  (forall (q sp : string) (w : world) (e : exn),
      w_llm w (length (w_requests w)) = Raise e ->
      get_result_v1 q sp w = (Raise e, add_request (request_v1 q sp) w) /\
      get_result_v2 q sp w =
        (Raise e, add_request (request_v2 (opening q sp)) w)) /\
  (forall (q sp : string) (w w2 : world) (s : Schema) (e : exn)
          (m : ChatCompletionMessage) (others : list ChatCompletionMessage)
          (tc : tool_call),
      w_llm w (length (w_requests w)) = Ret (m :: others) ->
      first_call m = Ret tc ->
      tc_name tc = "get_schema" ->
      get_schema (add_request (request_v2 (opening q sp)) w) = (Ret s, w2) ->
      w_llm w (S (length (w_requests w))) = Raise e ->
      get_result_v2 q sp w =
        (Raise e, add_request (request_v2 (with_schema q sp m tc s)) w2)).
Proof.
  split.
  - intros q sp w e Hreply.
    rewrite get_result_v1_run, get_result_v2_run, Hreply. now split.
  - intros q sp w w2 s e m others tc Hreply Hfirst Hname Hschema Hreply2.
    destruct (get_schema_keeps _ _ _ Hschema) as (_ & Hllm & Hreq & _).
    rewrite get_result_v2_run, Hreply. cbv zeta. cbn [py_index nth_error].
    rewrite Hfirst, Hname. cbn [String.eqb Ascii.eqb Bool.eqb].
    rewrite Hschema, Hllm, Hreq. cbn [w_llm w_requests add_request].
    rewrite length_app, Nat.add_1_r, Hreply2. reflexivity.
Qed.

(** X13. Whatever the model answers, [get_result_v2] sends one request
    or two, never more, the first always being the opening conversation
    without the schema; and it executes at most one statement through
    [read_sql_query]. *)
Theorem get_result_v2_is_bounded :
  forall (q sp : string) (w : world),
    (exists later,
        w_requests (snd (get_result_v2 q sp w)) =
          w_requests w ++ request_v2 (opening q sp) :: later /\
        length later <= 1) /\
    (exists l,
        w_dblog (snd (get_result_v2 q sp w)) = w_dblog w ++ l /\
        length (filter is_read_sql_query l) <= 1).
Proof.
  intros q sp w. rewrite get_result_v2_run. cbv zeta.
  assert (Hone : (exists later,
              w_requests (add_request (request_v2 (opening q sp)) w) =
                w_requests w ++ request_v2 (opening q sp) :: later /\
              length later <= 1) /\
            (exists l,
              w_dblog (add_request (request_v2 (opening q sp)) w) =
                w_dblog w ++ l /\
              length (filter is_read_sql_query l) <= 1)).
  { split; [exists []; split; [reflexivity|cbn; lia]|].
    exists []. rewrite app_nil_r. split; [reflexivity|cbn; lia]. }
  destruct (w_llm w (length (w_requests w))) as [response|e]; [|exact Hone].
  destruct (py_index response 0) as [m|e]; [|exact Hone].
  destruct (first_call m) as [tc|e]; [|exact Hone].
  destruct (String.eqb (tc_name tc) "get_schema"); [|exact Hone].
  clear Hone.
  destruct (get_schema _) as [[s|e] w2] eqn:Hschema;
    destruct (get_schema_keeps _ _ _ Hschema)
      as (_ & _ & Hreq & _ & l & Hl & Hlog);
    cbn [w_requests w_dblog add_request] in Hreq, Hlog.
  2:{ cbn [snd]. split.
      - exists []. rewrite Hreq. split; [reflexivity|cbn; lia].
      - eexists. split; [exact Hlog|]. cbn [filter is_read_sql_query].
        rewrite (cursor_executes_are_not_reads l Hl). cbn; lia. }
  assert (Htwo : (exists later,
              w_requests (add_request (request_v2 (with_schema q sp m tc s)) w2) =
                w_requests w ++ request_v2 (opening q sp) :: later /\
              length later <= 1) /\
            (exists l',
              w_dblog (add_request (request_v2 (with_schema q sp m tc s)) w2) =
                w_dblog w ++ l' /\
              length (filter is_read_sql_query l') <= 1)).
  { split.
    - exists [request_v2 (with_schema q sp m tc s)].
      cbn [w_requests add_request]. rewrite Hreq, <- app_assoc.
      split; [reflexivity|cbn; lia].
    - eexists. cbn [w_dblog add_request]. split; [exact Hlog|].
      cbn [filter is_read_sql_query].
      rewrite (cursor_executes_are_not_reads l Hl). cbn; lia. }
  destruct (w_llm w2 (length (w_requests w2))) as [second|e]; [|exact Htwo].
  destruct (py_index second 0) as [m2|e]; [|exact Htwo].
  destruct (first_call m2) as [tc2|e]; [|exact Htwo].
  destruct (String.eqb (tc_name tc2) "read_data"); [|exact Htwo].
  clear Htwo. split.
  - exists [request_v2 (with_schema q sp m tc s)].
    rewrite call_read_data_keeps_requests. cbn [w_requests add_request].
    rewrite Hreq, <- app_assoc. split; [reflexivity|cbn; lia].
  - destruct (call_read_data_log tc2
                (add_request (request_v2 (with_schema q sp m tc s)) w2))
      as (_ & _ & l' & Hl' & Hcount).
    exists ((Connect (length (w_dblog w)) :: l) ++ l'). split.
    + rewrite Hl'. cbn [w_dblog add_request]. rewrite Hlog, <- app_assoc.
      reflexivity.
    + rewrite filter_app. cbn [filter is_read_sql_query].
      rewrite (cursor_executes_are_not_reads l Hl). exact Hcount.
Qed.

End Orchestration.

(** ** The evaluation loop, continued *)

Section Batch.

Context {rt : Runtime}.
Local Open Scope py_scope.
#[local] Arguments String.append : simpl never.

Lemma eval_loop_count (get_result : string -> M result) (question : string)
    (eval_df : list EvalCase) :
  forall (n0 n : nat) (w w' : world),
    for_each eval_df (eval_row get_result question) n0 w = (Ret n, w') ->
    n0 <= n <= n0 + length eval_df.
Proof.
  induction eval_df as [|row eval_df IH]; intros n0 n w w' Hrun.
  - cbn in Hrun. unfold ret in Hrun. injection Hrun as <- _. cbn. lia.
  - cbn [for_each] in Hrun. unfold bind in Hrun.
    destruct (eval_row get_result question n0 row w) as [[n1|e] w1] eqn:Hrow;
      [|discriminate].
    apply IH in Hrun. cbn [length].
    rewrite eval_row_run in Hrow.
    destruct (read_data (JStr (Answer row)) w) as [[df_true|e] w0]; [|discriminate].
    destruct (get_result question w0) as [[[[sql df_llm]|]|e] w2];
      try (injection Hrow as <- _; lia).
    destruct (frames_equal df_true df_llm); injection Hrow as <- _; lia.
Qed.

(** X14. An evaluation that finishes prints one line, after everything
    else, with a count between zero and the number of rows over the
    number of rows. *)
Theorem evaluation_reports_a_count :
  forall (get_result : string -> M result) (question : string)
         (eval_df : list EvalCase) (w w' : world),
    evaluation get_result question eval_df w = (Ret tt, w') ->
    exists (n : nat) (w1 : world),
      for_each eval_df (eval_row get_result question) 0 w = (Ret n, w1) /\
      n <= length eval_df /\
      w_stdout w' =
        w_stdout w1 ++ [("Number of correct responses: " ++ str_nat n ++ "/" ++
                         str_nat (length eval_df))%string].
Proof.
  intros get_result question eval_df w w' Hrun.
  unfold evaluation, bind in Hrun.
  destruct (for_each eval_df (eval_row get_result question) 0 w)
    as [[n|e] w1] eqn:Hloop; [|discriminate].
  exists n, w1. split; [reflexivity|].
  apply eval_loop_count in Hloop. split; [lia|].
  unfold print in Hrun. injection Hrun as <-. reflexivity.
Qed.

(** X15. What a row is scored on.  When the reference statement is
    answered and the routine returns a pair, the row is counted as
    correct exactly when the shapes of the two frames broadcast, and not
    counted when they do not (the comparison then raises inside the
    [try]); the cells play no part. *)
Theorem eval_row_scores_the_shape :
  forall (get_result : string -> M result) (question : string)
         (n_correct : nat) (row : EvalCase) (w w1 w2 : world)
         (df_true df_llm : DataFrame) (sql : json),
    read_data (JStr (Answer row)) w = (Ret df_true, w1) ->
    get_result question w1 = (Ret (Some (sql, df_llm)), w2) ->
    (broadcastable (length (rows df_true)) (length (rows df_llm)) /\
     broadcastable (length (columns df_true)) (length (columns df_llm)) ->
     eval_row get_result question n_correct row w = (Ret (n_correct + 1), w2)) /\
    (~ (broadcastable (length (rows df_true)) (length (rows df_llm)) /\
        broadcastable (length (columns df_true)) (length (columns df_llm))) ->
     eval_row get_result question n_correct row w = (Ret n_correct, w2)).
Proof.
  intros get_result question n_correct row w w1 w2 df_true df_llm sql
    Htrue Hllm.
  rewrite eval_row_run, Htrue, Hllm.
  destruct (frames_equal_raises df_true df_llm) as [Hok Hbad].
  split.
  - intros Hshape. destruct (Hok Hshape) as [r ->]. reflexivity.
  - intros Hshape. rewrite (Hbad Hshape). reflexivity.
Qed.



End Batch.

(** ** Connections, and the two routines side by side *)

Section Connections.

Context {rt : Runtime}.
Local Open Scope py_scope.
#[local] Arguments String.append : simpl never.

(** The log of a requested call of [read_data] that returned a pair. *)
Lemma call_read_data_success_log (tc : tool_call) (w w' : world)
    (sql : json) (df : DataFrame) :
  call_read_data tc w = (Ret (Some (sql, df)), w') ->
  w_dblog w' = w_dblog w ++ [Connect (length (w_dblog w));
                             ReadSqlQuery (length (w_dblog w)) sql;
                             Close (length (w_dblog w))].
Proof.
  rewrite call_read_data_run.
  destruct (loads (tc_arguments tc)) as [arguments|e]; [|discriminate].
  destruct (json_getitem arguments "query") as [sql_query|e]; [|discriminate].
  rewrite read_data_run. cbv zeta.
  destruct (run_query (w_db w) sql_query) as [df'|e]; [|discriminate].
  intros H. injection H as <- _ <-. reflexivity.
Qed.

(** X18. The database calls of a successful run.  A run of
    [get_result_v1] that returns a pair has made three calls: it opened
    a connection, executed the returned statement on it and closed it.
    A run of [get_result_v2] that returns a pair has opened a first
    connection, executed cursor statements, then opened a second
    connection, executed the returned statement on it and closed that
    second connection: [close] is called once for two connections, never
    on the first. *)
Theorem database_calls_of_a_successful_run :
  forall (q sp : string) (w w' : world) (sql : json) (df : DataFrame),
    (get_result_v1 q sp w = (Ret (Some (sql, df)), w') ->
     w_dblog w' =
       w_dblog w ++ [Connect (length (w_dblog w));
                     ReadSqlQuery (length (w_dblog w)) sql;
                     Close (length (w_dblog w))]) /\
    (get_result_v2 q sp w = (Ret (Some (sql, df)), w') ->
     exists l,
       forallb is_cursor_execute l = true /\
       w_dblog w' =
         w_dblog w ++ Connect (length (w_dblog w)) :: l ++
           [Connect (length (w_dblog w) + 1 + length l);
            ReadSqlQuery (length (w_dblog w) + 1 + length l) sql;
            Close (length (w_dblog w) + 1 + length l)]).
Proof.
  intros q sp w w' sql df. split; intros Hrun.
  - rewrite get_result_v1_run in Hrun. cbv zeta in Hrun.
    destruct (w_llm w (length (w_requests w))) as [response|e]; [|discriminate].
    destruct (py_index response 0) as [m|e]; [|discriminate].
    destruct (first_call m) as [tc|e]; [|discriminate].
    destruct (String.eqb (tc_name tc) "read_data"); [|discriminate].
    apply call_read_data_success_log in Hrun. exact Hrun.
  - rewrite get_result_v2_run in Hrun. cbv zeta in Hrun.
    destruct (w_llm w (length (w_requests w))) as [response|e]; [|discriminate].
    destruct (py_index response 0) as [m|e]; [|discriminate].
    destruct (first_call m) as [tc|e]; [|discriminate].
    destruct (String.eqb (tc_name tc) "get_schema"); [|discriminate].
    destruct (get_schema _) as [[s|e] w2] eqn:Hschema; [|discriminate].
    destruct (get_schema_keeps _ _ _ Hschema) as (_ & _ & _ & _ & l & Hl & Hlog2).
    cbn [w_dblog add_request] in Hlog2.
    destruct (w_llm w2 (length (w_requests w2))) as [second|e]; [|discriminate].
    destruct (py_index second 0) as [m2|e]; [|discriminate].
    destruct (first_call m2) as [tc2|e]; [|discriminate].
    destruct (String.eqb (tc_name tc2) "read_data"); [|discriminate].
    apply call_read_data_success_log in Hrun.
    cbn [w_dblog add_request] in Hrun.
    exists l. split; [exact Hl|].
    rewrite Hrun, Hlog2, length_app. cbn [length].
    rewrite <- app_assoc. cbn [app].
    replace (length (w_dblog w) + S (length l))
      with (length (w_dblog w) + 1 + length l) by lia.
    reflexivity.
Qed.

End Connections.

(** * The further properties on concrete inputs *)

Section MoreRuns.

Import Sample.
Import Scenarios.

(** The grids [[1]] and [[2]]: the comparison answers, and answers
    [True] only if the two cells are equal. *)
Lemma frames_equal_same_shape_sample :
  exists r,
    frames_equal (frame1 "1" (SInt 1)) (frame1 "2" (SInt 2)) = Ret r /\
    (r = true <->
     forall i j x y,
       cell (frame1 "1" (SInt 1)) i j = Some x ->
       cell (frame1 "2" (SInt 2)) i j = Some y -> scalar_eqb x y = true).
Proof.
  apply (frames_equal_same_shape (frame1 "1" (SInt 1)) (frame1 "2" (SInt 2))).
  - repeat constructor.
  - repeat constructor.
  - repeat constructor.
  - repeat constructor.
  - reflexivity.
  - reflexivity.
Defined.

(** One cell against three rows of the same value. *)
Lemma frames_equal_broadcasts_one_cell_sample :
  frames_equal (frame1 "n" (SInt 3))
               (column_frame "3" [SInt 3; SInt 3; SInt 3]) = Ret true.
Proof.
  apply (frames_equal_broadcasts_one_cell "n" (SInt 3)
           (column_frame "3" [SInt 3; SInt 3; SInt 3])).
  - repeat constructor.
  - repeat constructor.
Defined.

(** The schema of [shop], and the four events of reading it. *)
Lemma get_schema_lists_every_table_sample :
  get_schema (fresh shop no_call) =
    (Ret shop_schema,
     set_dblog [Connect 0;
                CursorExecute 0 catalogue_statement;
                CursorExecute 0 "PRAGMA table_info('Orders')";
                CursorExecute 0 "PRAGMA table_info('Regions')"]
       (fresh shop no_call)).
Proof.
  apply (get_schema_lists_every_table (fresh shop no_call)
           [[SText "Orders"]; [SText "Regions"]] shop_schema).
  - reflexivity.
  - repeat constructor.
    + exists (table_info 0 ["OrderID"; "ShipCountry"]). repeat split; reflexivity.
    + exists (table_info 0 ["RegionID"; "RegionDescription"]).
      repeat split; reflexivity.
  - repeat constructor.
Defined.

Lemma get_schema_statement_count_sample :
  exists tables,
    cursor_execute (w_db (fresh shop no_call)) catalogue_statement = Some tables /\
    length (w_dblog (snd (get_schema (fresh shop no_call)))) =
      length (w_dblog (fresh shop no_call)) + 2 + length tables /\
    length (filter is_cursor_execute
              (w_dblog (snd (get_schema (fresh shop no_call))))) =
      length (filter is_cursor_execute (w_dblog (fresh shop no_call))) + 1 +
      length tables /\
    length shop_schema <= length tables.
Proof.
  apply (get_schema_statement_count (fresh shop no_call)
           (snd (get_schema (fresh shop no_call))) shop_schema).
  reflexivity.
Defined.

Lemma get_schema_keys_are_distinct_sample : distinct_keys shop_schema.
Proof.
  apply (get_schema_keys_are_distinct (fresh shop no_call)
           (snd (get_schema (fresh shop no_call))) shop_schema).
  reflexivity.
Defined.

(** The model gives [SELECT 1] at once. *)
Lemma get_result_v1_returns_the_model_query_sample :
  get_result_v1 question prompt_before (fresh shop (one_step "SELECT 1")) =
    (Ret (Some (JStr "SELECT 1", frame1 "1" (SInt 1))),
     set_dblog [Connect 0; ReadSqlQuery 0 (JStr "SELECT 1"); Close 0]
       (add_request (request_v1 question prompt_before)
          (fresh shop (one_step "SELECT 1")))).
Proof.
  apply (get_result_v1_returns_the_model_query question prompt_before
           (fresh shop (one_step "SELECT 1"))
           {| content := None;
              tool_calls := Some [call "read_data" (query_arguments "SELECT 1")] |}
           [] (call "read_data" (query_arguments "SELECT 1"))
           (JDict [("query", JStr "SELECT 1")]) "SELECT 1" (frame1 "1" (SInt 1)));
    reflexivity.
Defined.

(** The model asks for the schema, then gives [SELECT 1]. *)
Lemma get_result_v2_returns_the_model_query_sample :
  fst (get_result_v2 question SYSTEM_PROMPT_v2 (fresh shop (two_step "SELECT 1"))) =
    Ret (Some (JStr "SELECT 1", frame1 "1" (SInt 1))) /\
  length (w_requests (snd (get_result_v2 question SYSTEM_PROMPT_v2
                             (fresh shop (two_step "SELECT 1"))))) = 2.
Proof.
  set (w := fresh shop (two_step "SELECT 1")).
  set (w2 := snd (get_schema
                    (add_request (request_v2 (opening question SYSTEM_PROMPT_v2)) w))).
  destruct (get_result_v2_returns_the_model_query question SYSTEM_PROMPT_v2
              w w2 shop_schema
              {| content := None; tool_calls := Some [call "get_schema" "{}"] |}
              {| content := None;
                 tool_calls := Some [call "read_data" (query_arguments "SELECT 1")] |}
              [] [] (call "get_schema" "{}")
              (call "read_data" (query_arguments "SELECT 1"))
              (JDict [("query", JStr "SELECT 1")]) "SELECT 1" (frame1 "1" (SInt 1))
              eq_refl eq_refl eq_refl eq_refl eq_refl eq_refl eq_refl eq_refl
              eq_refl eq_refl) as [Hrun Hreq].
  rewrite Hrun. split; reflexivity.
Defined.

Lemma returned_pairs_come_from_the_database_sample :
  exists text,
    JStr "SELECT 2" = JStr text /\
    read_sql_query (w_db (fresh shop (two_step "SELECT 2"))) text =
      Some (frame1 "2" (SInt 2)).
Proof.
  apply (returned_pairs_come_from_the_database question SYSTEM_PROMPT_v2
           (fresh shop (two_step "SELECT 2")) (JStr "SELECT 2")
           (frame1 "2" (SInt 2))).
  right. reflexivity.
Defined.


(** The endpoint is down from the start, or after the schema was asked. *)
Lemma endpoint_errors_propagate_sample :
  fst (get_result_v1 question prompt_before (fresh shop api_down)) =
    Raise APIError /\
  fst (get_result_v2 question SYSTEM_PROMPT_v2 (fresh shop down_after_schema)) =
    Raise APIError /\
  length (w_requests (snd (get_result_v2 question SYSTEM_PROMPT_v2
                             (fresh shop down_after_schema)))) = 2.
Proof.
  destruct (@endpoint_errors_propagate runtime) as [H1 H2].
  split.
  - destruct (H1 question prompt_before (fresh shop api_down) APIError eq_refl)
      as [-> _].
    reflexivity.
  - set (w := fresh shop down_after_schema).
    set (w2 := snd (get_schema
                      (add_request (request_v2 (opening question SYSTEM_PROMPT_v2)) w))).
    rewrite (H2 question SYSTEM_PROMPT_v2 w w2 shop_schema APIError
               {| content := None; tool_calls := Some [call "get_schema" "{}"] |}
               [] (call "get_schema" "{}") eq_refl eq_refl eq_refl eq_refl eq_refl).
    split; reflexivity.
Defined.

(** Two rows, both counted. *)
Lemma evaluation_reports_a_count_sample :
  exists (n : nat) (w1 : world),
    for_each [one_case; brazil_case]
      (eval_row (fun q => get_result_v1 q prompt_before) question) 0
      (fresh shop (one_step "SELECT 1")) = (Ret n, w1) /\
    n <= 2 /\
    w_stdout (snd (evaluation_v1 prompt_before question [one_case; brazil_case]
                     (fresh shop (one_step "SELECT 1")))) =
      w_stdout w1 ++ [("Number of correct responses: " ++ str_nat n ++ "/" ++
                       str_nat 2)%string].
Proof.
  apply (evaluation_reports_a_count (fun q => get_result_v1 q prompt_before)
           question [one_case; brazil_case] (fresh shop (one_step "SELECT 1"))
           (snd (evaluation_v1 prompt_before question [one_case; brazil_case]
                   (fresh shop (one_step "SELECT 1"))))).
  vm_compute. reflexivity.
Defined.

(** Three rows of ground truth against one row of the model: counted;
    against two rows: not counted. *)
Lemma eval_row_scores_the_shape_sample :
  fst (eval_row (fun q => get_result_v1 q prompt_before) question 0
         three_rows_case (fresh shop_with_rows (one_step "SELECT 1"))) = Ret 1 /\
  fst (eval_row (fun q => get_result_v1 q prompt_before) question 0
         three_rows_case
         (fresh shop_with_rows (one_step "SELECT 2 FROM Regions"))) = Ret 0.
Proof.
  split.
  - set (w := fresh shop_with_rows (one_step "SELECT 1")).
    rewrite (proj1 (eval_row_scores_the_shape
               (fun q => get_result_v1 q prompt_before) question 0
               three_rows_case w
               (snd (read_data (JStr "SELECT 3 FROM Orders") w))
               (snd (get_result_v1 question prompt_before
                       (snd (read_data (JStr "SELECT 3 FROM Orders") w))))
               (column_frame "3" [SInt 3; SInt 3; SInt 3]) (frame1 "1" (SInt 1))
               (JStr "SELECT 1") eq_refl eq_refl)).
    + reflexivity.
    + split; [right; right; reflexivity|left; reflexivity].
  - set (w := fresh shop_with_rows (one_step "SELECT 2 FROM Regions")).
    rewrite (proj2 (eval_row_scores_the_shape
               (fun q => get_result_v1 q prompt_before) question 0
               three_rows_case w
               (snd (read_data (JStr "SELECT 3 FROM Orders") w))
               (snd (get_result_v1 question prompt_before
                       (snd (read_data (JStr "SELECT 3 FROM Orders") w))))
               (column_frame "3" [SInt 3; SInt 3; SInt 3])
               (column_frame "2" [SInt 2; SInt 2])
               (JStr "SELECT 2 FROM Regions") eq_refl eq_refl)).
    + reflexivity.
    + intros [[H|[H|H]] _]; discriminate H.
Defined.

(** The model gives a statement that is not SQL. *)
Lemma get_result_v1_refused_statement_sample :
  exists e,
    get_result_v1 question prompt_before (fresh shop (one_step "SELEC 2")) =
      (Raise e,
       set_dblog [Connect 0; ReadSqlQuery 0 (JStr "SELEC 2")]
         (add_request (request_v1 question prompt_before)
            (fresh shop (one_step "SELEC 2")))).
Proof.
  apply (get_result_v1_refused_statement question prompt_before
           (fresh shop (one_step "SELEC 2"))
           {| content := None;
              tool_calls := Some [call "read_data" (query_arguments "SELEC 2")] |}
           [] (call "read_data" (query_arguments "SELEC 2"))
           (JDict [("query", JStr "SELEC 2")]) "SELEC 2");
    reflexivity.
Defined.


(** The calls of the two-pass routine on [shop]: the first connection is
    never closed. *)
Lemma database_calls_of_a_successful_run_sample :
  exists l,
    forallb is_cursor_execute l = true /\
    w_dblog (snd (get_result_v2 question SYSTEM_PROMPT_v2
                    (fresh shop (two_step "SELECT 1")))) =
      [] ++ Connect 0 :: l ++
        [Connect (0 + 1 + length l);
         ReadSqlQuery (0 + 1 + length l) (JStr "SELECT 1");
         Close (0 + 1 + length l)].
Proof.
  apply (proj2 (database_calls_of_a_successful_run question SYSTEM_PROMPT_v2
                  (fresh shop (two_step "SELECT 1"))
                  (snd (get_result_v2 question SYSTEM_PROMPT_v2
                          (fresh shop (two_step "SELECT 1"))))
                  (JStr "SELECT 1") (frame1 "1" (SInt 1)))).
  vm_compute. reflexivity.
Defined.

End MoreRuns.
